(** * NPI proxy ([app/main.py]): a shallow embedding of the [/check-npi]
    endpoint and the properties of its validator, upstream call, response
    mapper and rate limiter. *)

From Stdlib Require Import NArith ZArith SpecFloat Ascii String.
From stdpp Require Import base option list gmap strings pretty.

Local Open Scope N_scope.

(** ** Python strings

    A Python [str] is a sequence of Unicode code points. *)

Definition pystr : Type := list N.

Fixpoint str (s : string) : pystr :=
  match s with
  | EmptyString => []
  | String a s' => N_of_ascii a :: str s'
  end.

(** *** [str.isdigit]

    [digit_ranges] lists, as inclusive ranges, the code points whose Unicode
    property Numeric_Type is Decimal or Digit (Unicode 14.0.0, the database
    of CPython 3.11): the characters for which [str.isdigit] holds. *)

Definition digit_ranges : list (N * N) :=
  [(48, 57); (178, 179); (185, 185); (1632, 1641); (1776, 1785); (1984,
   1993); (2406, 2415); (2534, 2543); (2662, 2671); (2790, 2799); (2918,
   2927); (3046, 3055); (3174, 3183); (3302, 3311); (3430, 3439); (3558,
   3567); (3664, 3673); (3792, 3801); (3872, 3881); (4160, 4169); (4240,
   4249); (4969, 4977); (6112, 6121); (6160, 6169); (6470, 6479); (6608,
   6618); (6784, 6793); (6800, 6809); (6992, 7001); (7088, 7097); (7232,
   7241); (7248, 7257); (8304, 8304); (8308, 8313); (8320, 8329); (9312,
   9320); (9332, 9340); (9352, 9360); (9450, 9450); (9461, 9469); (9471,
   9471); (10102, 10110); (10112, 10120); (10122, 10130); (42528, 42537);
   (43216, 43225); (43264, 43273); (43472, 43481); (43504, 43513); (43600,
   43609); (44016, 44025); (65296, 65305); (66720, 66729); (68160, 68163);
   (68912, 68921); (69216, 69224); (69714, 69722); (69734, 69743); (69872,
   69881); (69942, 69951); (70096, 70105); (70384, 70393); (70736, 70745);
   (70864, 70873); (71248, 71257); (71360, 71369); (71472, 71481); (71904,
   71913); (72016, 72025); (72784, 72793); (73040, 73049); (73120, 73129);
   (92768, 92777); (92864, 92873); (93008, 93017); (120782, 120831);
   (123200, 123209); (123632, 123641); (125264, 125273); (127232, 127242);
   (130032, 130041)]%N.

Definition in_range (c : N) (r : N * N) : bool :=
  (r.1 <=? c) && (c <=? r.2).

Definition isdigit_cp (c : N) : bool := existsb (in_range c) digit_ranges.

(** [s.isdigit()]: every character is a digit and there is at least one. *)
Definition isdigit (s : pystr) : bool :=
  match s with
  | [] => false
  | _ => forallb isdigit_cp s
  end.

(** The ASCII digits ['0'] to ['9'], the class [[0-9]]. *)
Definition ascii_digit (c : N) : bool := (48 <=? c) && (c <=? 57).

(** The pattern [^[0-9]{10}$] as the specification reads it: exactly ten
    characters, each an ASCII digit. *)
Definition ten_ascii_digits (s : pystr) : bool :=
  (length s =? 10)%nat && forallb ascii_digit s.

(** *** [str.upper]

    CPython maps every character through Unicode's full uppercase mapping,
    without looking at its context.  [upper_runs] holds the one-to-one
    mappings as runs [(lo, hi, stride, target)]: the code points [lo],
    [lo + stride], ... up to [hi] map to [target], [target + stride], ...;
    [upper_special] holds the characters whose uppercase is several
    characters.  Every other code point is its own uppercase. *)

Definition upper_runs : list (N * N * N * N) :=
  [(97, 122, 1, 65); (181, 181, 1, 924); (224, 246, 1, 192); (248, 254, 1,
   216); (255, 255, 1, 376); (257, 303, 2, 256); (305, 305, 1, 73); (307,
   311, 2, 306); (314, 328, 2, 313); (331, 375, 2, 330); (378, 382, 2, 377);
   (383, 383, 1, 83); (384, 384, 1, 579); (387, 389, 2, 386); (392, 392, 1,
   391); (396, 396, 1, 395); (402, 402, 1, 401); (405, 405, 1, 502); (409,
   409, 1, 408); (410, 410, 1, 573); (414, 414, 1, 544); (417, 421, 2, 416);
   (424, 424, 1, 423); (429, 429, 1, 428); (432, 432, 1, 431); (436, 438, 2,
   435); (441, 441, 1, 440); (445, 445, 1, 444); (447, 447, 1, 503); (453,
   453, 1, 452); (454, 454, 1, 452); (456, 456, 1, 455); (457, 457, 1, 455);
   (459, 459, 1, 458); (460, 460, 1, 458); (462, 476, 2, 461); (477, 477, 1,
   398); (479, 495, 2, 478); (498, 498, 1, 497); (499, 499, 1, 497); (501,
   501, 1, 500); (505, 543, 2, 504); (547, 563, 2, 546); (572, 572, 1, 571);
   (575, 576, 1, 11390); (578, 578, 1, 577); (583, 591, 2, 582); (592, 592,
   1, 11375); (593, 593, 1, 11373); (594, 594, 1, 11376); (595, 595, 1,
   385); (596, 596, 1, 390); (598, 599, 1, 393); (601, 601, 1, 399); (603,
   603, 1, 400); (604, 604, 1, 42923); (608, 608, 1, 403); (609, 609, 1,
   42924); (611, 611, 1, 404); (613, 613, 1, 42893); (614, 614, 1, 42922);
   (616, 616, 1, 407); (617, 617, 1, 406); (618, 618, 1, 42926); (619, 619,
   1, 11362); (620, 620, 1, 42925); (623, 623, 1, 412); (625, 625, 1,
   11374); (626, 626, 1, 413); (629, 629, 1, 415); (637, 637, 1, 11364);
   (640, 640, 1, 422); (642, 642, 1, 42949); (643, 643, 1, 425); (647, 647,
   1, 42929); (648, 648, 1, 430); (649, 649, 1, 580); (650, 651, 1, 433);
   (652, 652, 1, 581); (658, 658, 1, 439); (669, 669, 1, 42930); (670, 670,
   1, 42928); (837, 837, 1, 921); (881, 883, 2, 880); (887, 887, 1, 886);
   (891, 893, 1, 1021); (940, 940, 1, 902); (941, 943, 1, 904); (945, 961,
   1, 913); (962, 962, 1, 931); (963, 971, 1, 931); (972, 972, 1, 908);
   (973, 974, 1, 910); (976, 976, 1, 914); (977, 977, 1, 920); (981, 981, 1,
   934); (982, 982, 1, 928); (983, 983, 1, 975); (985, 1007, 2, 984); (1008,
   1008, 1, 922); (1009, 1009, 1, 929); (1010, 1010, 1, 1017); (1011, 1011,
   1, 895); (1013, 1013, 1, 917); (1016, 1016, 1, 1015); (1019, 1019, 1,
   1018); (1072, 1103, 1, 1040); (1104, 1119, 1, 1024); (1121, 1153, 2,
   1120); (1163, 1215, 2, 1162); (1218, 1230, 2, 1217); (1231, 1231, 1,
   1216); (1233, 1327, 2, 1232); (1377, 1414, 1, 1329); (4304, 4346, 1,
   7312); (4349, 4351, 1, 7357); (5112, 5117, 1, 5104); (7296, 7296, 1,
   1042); (7297, 7297, 1, 1044); (7298, 7298, 1, 1054); (7299, 7300, 1,
   1057); (7301, 7301, 1, 1058); (7302, 7302, 1, 1066); (7303, 7303, 1,
   1122); (7304, 7304, 1, 42570); (7545, 7545, 1, 42877); (7549, 7549, 1,
   11363); (7566, 7566, 1, 42950); (7681, 7829, 2, 7680); (7835, 7835, 1,
   7776); (7841, 7935, 2, 7840); (7936, 7943, 1, 7944); (7952, 7957, 1,
   7960); (7968, 7975, 1, 7976); (7984, 7991, 1, 7992); (8000, 8005, 1,
   8008); (8017, 8023, 2, 8025); (8032, 8039, 1, 8040); (8048, 8049, 1,
   8122); (8050, 8053, 1, 8136); (8054, 8055, 1, 8154); (8056, 8057, 1,
   8184); (8058, 8059, 1, 8170); (8060, 8061, 1, 8186); (8112, 8113, 1,
   8120); (8126, 8126, 1, 921); (8144, 8145, 1, 8152); (8160, 8161, 1,
   8168); (8165, 8165, 1, 8172); (8526, 8526, 1, 8498); (8560, 8575, 1,
   8544); (8580, 8580, 1, 8579); (9424, 9449, 1, 9398); (11312, 11359, 1,
   11264); (11361, 11361, 1, 11360); (11365, 11365, 1, 570); (11366, 11366,
   1, 574); (11368, 11372, 2, 11367); (11379, 11379, 1, 11378); (11382,
   11382, 1, 11381); (11393, 11491, 2, 11392); (11500, 11502, 2, 11499);
   (11507, 11507, 1, 11506); (11520, 11557, 1, 4256); (11559, 11559, 1,
   4295); (11565, 11565, 1, 4301); (42561, 42605, 2, 42560); (42625, 42651,
   2, 42624); (42787, 42799, 2, 42786); (42803, 42863, 2, 42802); (42874,
   42876, 2, 42873); (42879, 42887, 2, 42878); (42892, 42892, 1, 42891);
   (42897, 42899, 2, 42896); (42900, 42900, 1, 42948); (42903, 42921, 2,
   42902); (42933, 42947, 2, 42932); (42952, 42954, 2, 42951); (42961,
   42961, 1, 42960); (42967, 42969, 2, 42966); (42998, 42998, 1, 42997);
   (43859, 43859, 1, 42931); (43888, 43967, 1, 5024); (65345, 65370, 1,
   65313); (66600, 66639, 1, 66560); (66776, 66811, 1, 66736); (66967,
   66977, 1, 66928); (66979, 66993, 1, 66940); (66995, 67001, 1, 66956);
   (67003, 67004, 1, 66964); (68800, 68850, 1, 68736); (71872, 71903, 1,
   71840); (93792, 93823, 1, 93760); (125218, 125251, 1, 125184)]%N.

Definition upper_special : list (N * list N) :=
  [(223, [83; 83]); (329, [700; 78]); (496, [74; 780]); (912, [921; 776;
   769]); (944, [933; 776; 769]); (1415, [1333; 1362]); (7830, [72; 817]);
   (7831, [84; 776]); (7832, [87; 778]); (7833, [89; 778]); (7834, [65;
   702]); (8016, [933; 787]); (8018, [933; 787; 768]); (8020, [933; 787;
   769]); (8022, [933; 787; 834]); (8064, [7944; 921]); (8065, [7945; 921]);
   (8066, [7946; 921]); (8067, [7947; 921]); (8068, [7948; 921]); (8069,
   [7949; 921]); (8070, [7950; 921]); (8071, [7951; 921]); (8072, [7944;
   921]); (8073, [7945; 921]); (8074, [7946; 921]); (8075, [7947; 921]);
   (8076, [7948; 921]); (8077, [7949; 921]); (8078, [7950; 921]); (8079,
   [7951; 921]); (8080, [7976; 921]); (8081, [7977; 921]); (8082, [7978;
   921]); (8083, [7979; 921]); (8084, [7980; 921]); (8085, [7981; 921]);
   (8086, [7982; 921]); (8087, [7983; 921]); (8088, [7976; 921]); (8089,
   [7977; 921]); (8090, [7978; 921]); (8091, [7979; 921]); (8092, [7980;
   921]); (8093, [7981; 921]); (8094, [7982; 921]); (8095, [7983; 921]);
   (8096, [8040; 921]); (8097, [8041; 921]); (8098, [8042; 921]); (8099,
   [8043; 921]); (8100, [8044; 921]); (8101, [8045; 921]); (8102, [8046;
   921]); (8103, [8047; 921]); (8104, [8040; 921]); (8105, [8041; 921]);
   (8106, [8042; 921]); (8107, [8043; 921]); (8108, [8044; 921]); (8109,
   [8045; 921]); (8110, [8046; 921]); (8111, [8047; 921]); (8114, [8122;
   921]); (8115, [913; 921]); (8116, [902; 921]); (8118, [913; 834]); (8119,
   [913; 834; 921]); (8124, [913; 921]); (8130, [8138; 921]); (8131, [919;
   921]); (8132, [905; 921]); (8134, [919; 834]); (8135, [919; 834; 921]);
   (8140, [919; 921]); (8146, [921; 776; 768]); (8147, [921; 776; 769]);
   (8150, [921; 834]); (8151, [921; 776; 834]); (8162, [933; 776; 768]);
   (8163, [933; 776; 769]); (8164, [929; 787]); (8166, [933; 834]); (8167,
   [933; 776; 834]); (8178, [8186; 921]); (8179, [937; 921]); (8180, [911;
   921]); (8182, [937; 834]); (8183, [937; 834; 921]); (8188, [937; 921]);
   (64256, [70; 70]); (64257, [70; 73]); (64258, [70; 76]); (64259, [70; 70;
   73]); (64260, [70; 70; 76]); (64261, [83; 84]); (64262, [83; 84]);
   (64275, [1348; 1350]); (64276, [1348; 1333]); (64277, [1348; 1339]);
   (64278, [1358; 1350]); (64279, [1348; 1341])]%N.

Definition in_run (c : N) (r : N * N * N * N) : bool :=
  let '(lo, hi, stride, _) := r in
  (lo <=? c) && (c <=? hi) && ((c - lo) mod stride =? 0).

Definition assoc {V : Type} (c : N) (l : list (N * V)) : option V :=
  snd <$> List.find (λ p, p.1 =? c) l.

Definition upper_cp (c : N) : pystr :=
  match assoc c upper_special with
  | Some u => u
  | None =>
      match List.find (in_run c) upper_runs with
      | Some (lo, _, _, target) => [target + (c - lo)]
      | None => [c]
      end
  end.

Definition upper (s : pystr) : pystr := flat_map upper_cp s.

(** ** Parsed JSON documents

    The value [response.json()] returns: [None], [bool], [int], [float],
    [str], [list] or a [dict] with string keys.  A dict is an association
    list read at the first entry for a key; the entries keep their order. *)

#[local] Set Warnings "-register-all".

Inductive json : Type :=
| JNull
| JBool (b : bool)
| JInt (z : Z)
| JFloat (f : spec_float)
| JStr (s : pystr)
| JList (l : list json)
| JDict (d : list (pystr * json)).

Fixpoint dict_lookup (d : list (pystr * json)) (k : pystr) : option json :=
  match d with
  | [] => None
  | (k', v) :: d' => if decide (k' = k) then Some v else dict_lookup d' k
  end.

(** Python's truth value of an object, as [not x] and [x or y] use it. *)
Definition truthy (v : json) : bool :=
  match v with
  | JNull => false
  | JBool b => b
  | JInt z => negb (z =? 0)%Z
  | JFloat (S754_zero _) => false
  | JFloat _ => true
  | JStr [] | JList [] | JDict [] => false
  | JStr _ | JList _ | JDict _ => true
  end.

(** [x or y] *)
Definition py_or (x y : json) : json := if truthy x then x else y.

(** ** Exceptions and results *)

Inductive exn : Type :=
| HTTPException (status_code : nat) (detail : pystr)
| RequestError (cause : pystr)
| HTTPStatusError (status_code : nat)
| JSONDecodeError
| AttributeError
| KeyError
| IndexError
| TypeError
| RateLimitExceeded.

Inductive result (A : Type) : Type :=
| Ok (a : A)
| Raise (e : exn).
Arguments Ok {A} a.
Arguments Raise {A} e.

Definition rbind {A B : Type} (r : result A) (k : A → result B) : result B :=
  match r with
  | Ok a => k a
  | Raise e => Raise e
  end.

Declare Scope result_scope.
Delimit Scope result_scope with result.
Notation "'let*' x := r 'in' k" := (rbind r (λ x, k))
  (at level 10, x name, r at level 100, k at level 200) : result_scope.

(** *** Operations on values that may raise *)

(** [v.get(k)] and [v.get(k, default)]: only a dict has the method. *)
Definition py_get (v : json) (k : pystr) (dflt : json) : result json :=
  match v with
  | JDict d => Ok (default dflt (dict_lookup d k))
  | _ => Raise AttributeError
  end.

(** [v[k]] for a string key [k]. *)
Definition py_getitem (v : json) (k : pystr) : result json :=
  match v with
  | JDict d =>
      match dict_lookup d k with
      | Some x => Ok x
      | None => Raise KeyError
      end
  | _ => Raise TypeError
  end.

(** [v[0]]: the first element of a list, the first character of a string;
    a parsed dict has no integer key; nothing else can be indexed. *)
Definition py_first (v : json) : result json :=
  match v with
  | JList (x :: _) => Ok x
  | JStr (c :: _) => Ok (JStr [c])
  | JList [] | JStr [] => Raise IndexError
  | JDict _ => Raise KeyError
  | _ => Raise TypeError
  end.

(** [v.upper()]: only a string has the method. *)
Definition py_upper (v : json) : result pystr :=
  match v with
  | JStr s => Ok (upper s)
  | _ => Raise AttributeError
  end.

(** ** The response mapper ([check_npi], from [data.get("results")] on) *)

Definition not_found (number : pystr) : json :=
  JDict [(str "ok", JBool false); (str "reason", JStr (str "not_found"));
         (str "number", JStr number)].

Definition inactive (number : pystr) : json :=
  JDict [(str "ok", JBool false); (str "reason", JStr (str "inactive"));
         (str "number", JStr number)].

Definition found (number : pystr) (type_ first_name last_name : json) : json :=
  JDict [(str "ok", JBool true); (str "number", JStr number);
         (str "type", type_); (str "first_name", first_name);
         (str "last_name", last_name)].

Local Open Scope result_scope.

Definition response_mapper (number : pystr) (data : json) : result json :=
  let* results := py_get data (str "results") JNull in
  if negb (truthy results) then Ok (not_found number)
  else
    let* results := py_getitem data (str "results") in
    let* entry := py_first results in
    let* basic := py_get entry (str "basic") (JDict []) in
    let* status := py_get basic (str "status") JNull in
    let* status := py_upper (py_or status (JStr [])) in
    let* type_ := py_get entry (str "enumeration_type") (JStr []) in
    if negb (bool_decide (status = str "A")) then Ok (inactive number)
    else
      let* first_name := py_get basic (str "first_name") JNull in
      let* last_name := py_get basic (str "last_name") JNull in
      Ok (found number type_ first_name last_name).

(** The outcomes of the data model: the bodies the mapper may return. *)
Inductive LookupResult (number : pystr) : json → Prop :=
| NotFound : LookupResult number (not_found number)
| Inactive : LookupResult number (inactive number)
| Found type_ first_name last_name :
    LookupResult number (found number type_ first_name last_name).

(** ** The server's world and its effects *)

Record Limits : Type :=
  { max_keepalive_connections : nat; max_connections : nat }.

Record Timeout : Type := { timeout_seconds : nat }.

Definition NPPES_API : pystr := str "https://npiregistry.cms.hhs.gov/api/".
Definition HTTP_TIMEOUT : Timeout := {| timeout_seconds := 5 |}.
Definition HTTP_LIMITS : Limits :=
  {| max_keepalive_connections := 5; max_connections := 10 |}.

(** What a request does to the outside, in order.  A client is named by the
    number of the [httpx.AsyncClient] object: every construction makes a new
    object with a connection pool of its own. *)
Inductive event : Type :=
| ClientOpen (client : nat) (timeout : Timeout) (limits : Limits)
| ClientGet (client : nat) (url : pystr) (params : list (pystr * pystr))
| ClientClose (client : nat)
| LogError (msg : pystr).

(** The state shared by the requests of one process: the limiter's storage,
    for each key the end of its window and the hits counted in it, and the
    number of client objects constructed so far. *)
Record world : Type :=
  { limiter_storage : gmap string (nat * nat); clients_made : nat }.

(** What the registry answers to a GET: no answer at all, or a status code
    and a body that is a JSON document or is not. *)
Inductive upstream_body : Type :=
| JsonBody (doc : json)
| NotJson (raw : pystr).

Inductive upstream_reply : Type :=
| TransportFailure (cause : pystr)
| Response (status_code : nat) (body : upstream_body).

Definition upstream : Type := pystr → list (pystr * pystr) → upstream_reply.

(** Computations that read and change the world, emit events and may raise. *)
Definition M (A : Type) : Type := world → result A * world * list event.

Definition ret {A : Type} (a : A) : M A := λ w, (Ok a, w, []).

Definition raise {A : Type} (e : exn) : M A := λ w, (Raise e, w, []).

Definition bind {A B : Type} (m : M A) (k : A → M B) : M B := λ w,
  match m w with
  | (Ok a, w', ev) => let '(r, w'', ev') := k a w' in (r, w'', ev ++ ev')
  | (Raise e, w', ev) => (Raise e, w', ev)
  end.

Definition emit (e : event) : M unit := λ w, (Ok (), w, [e]).

Definition lift {A : Type} (r : result A) : M A := λ w, (r, w, []).

(** [try: m except e: handler e] *)
Definition try_except {A : Type} (m : M A) (handler : exn → M A) : M A := λ w,
  match m w with
  | (Raise e, w', ev) => let '(r, w'', ev') := handler e w' in (r, w'', ev ++ ev')
  | done => done
  end.

(** [m] followed by [cleanup], also when [m] raises. *)
Definition finally {A : Type} (m : M A) (cleanup : M unit) : M A := λ w,
  let '(r, w', ev) := m w in
  let '(_, w'', ev') := cleanup w' in (r, w'', ev ++ ev').

Declare Scope M_scope.
Delimit Scope M_scope with M.
Notation "'let!' x := m 'in' k" := (bind m (λ x, k))
  (at level 10, x name, m at level 100, k at level 200) : M_scope.

Local Open Scope M_scope.

(** *** The HTTP client *)

(** [async with httpx.AsyncClient(timeout=..., limits=...) as client: body]:
    a new client is constructed and entered, and it is closed when the block
    is left, whether [body] returns or raises. *)
Definition made_client (w : world) : world :=
  {| limiter_storage := limiter_storage w; clients_made := S (clients_made w) |}.

Definition new_client : M nat := λ w, (Ok (clients_made w), made_client w, []).

Definition async_with_client {A : Type} (timeout : Timeout) (limits : Limits)
    (body : nat → M A) : M A :=
  let! client := new_client in
  let! _ := emit (ClientOpen client timeout limits) in
  finally (body client) (emit (ClientClose client)).

(** [await client.get(url, params=params)]: raises [httpx.RequestError] when
    the transport fails. *)
Definition client_get (up : upstream) (client : nat) (url : pystr)
    (params : list (pystr * pystr)) : M (nat * upstream_body) :=
  let! _ := emit (ClientGet client url params) in
  match up url params with
  | TransportFailure cause => raise (RequestError cause)
  | Response status_code body => ret (status_code, body)
  end.

(** [response.raise_for_status()]: raises [httpx.HTTPStatusError] unless the
    status code is 2xx. *)
Definition is_success (status_code : nat) : bool :=
  (200 <=? status_code)%nat && (status_code <=? 299)%nat.

Definition raise_for_status (response : nat * upstream_body) : M unit :=
  if is_success response.1 then ret () else raise (HTTPStatusError response.1).

(** [response.json()]: raises [json.JSONDecodeError] on a body that is not
    JSON. *)
Definition response_json (response : nat * upstream_body) : M json :=
  match response.2 with
  | JsonBody doc => ret doc
  | NotJson _ => raise JSONDecodeError
  end.

(** [logger.error(msg)] *)
Definition logger_error (msg : pystr) : M unit := emit (LogError msg).

(** ** The handler [check_npi] *)

(** The guard of the handler's first statement. *)
Definition invalid_format (number : pystr) : bool :=
  negb (isdigit number) || negb (bool_decide (length number = 10%nat)).

Definition query (number : pystr) : list (pystr * pystr) :=
  [(str "version", str "2.1"); (str "number", number)].

Definition check_npi (up : upstream) (number : pystr) : M json :=
  if invalid_format number
  then raise (HTTPException 400 (str "Invalid NPI number format"))
  else
    let params := query number in
    let! data :=
      try_except
        (async_with_client HTTP_TIMEOUT HTTP_LIMITS (λ client,
           let! response := client_get up client NPPES_API params in
           let! _ := raise_for_status response in
           response_json response))
        (λ e,
           match e with
           | RequestError cause =>
               let! _ := logger_error
                 (str "Connection error while checking NPI " ++ number
                    ++ str ": " ++ cause) in
               raise (HTTPException 500 (str "NPPES API request failed"))
           | HTTPStatusError status_code =>
               let! _ := logger_error
                 (str "NPPES API returned error for NPI " ++ number
                    ++ str ": " ++ str (pretty status_code)) in
               raise (HTTPException 500 (str "NPPES API returned error"))
           | _ => raise e
           end) in
    lift (response_mapper number data).

(** ** The rate limiter

    [Limiter(key_func=get_remote_address)] with the limit ["10/minute"]:
    slowapi's default, a fixed window kept in memory.  A hit drops the
    key's window when it has ended, counts the hit, starts a window of 60
    seconds at the first hit, and is allowed while the count is at most 10.
    Time is the clock in whole seconds. *)

Definition limit_amount : nat := 10.
Definition limit_window : nat := 60.

Definition storage_incr (now : nat) (key : string)
    (storage : gmap string (nat * nat)) : nat * gmap string (nat * nat) :=
  match storage !! key with
  | Some (expiry, count) =>
      if (expiry <=? now)%nat
      then (1%nat, <[key := ((now + limit_window)%nat, 1%nat)]> storage)
      else (S count, <[key := (expiry, S count)]> storage)
  | None => (1%nat, <[key := ((now + limit_window)%nat, 1%nat)]> storage)
  end.

Definition limiter_hit (now : nat) (key : string) : M bool := λ w,
  let '(count, storage) := storage_incr now key (limiter_storage w) in
  (Ok (count <=? limit_amount)%nat,
   {| limiter_storage := storage; clients_made := clients_made w |}, []).

(** [@limiter.limit("10/minute")]: the wrapped handler runs only when the
    hit is allowed. *)
Definition limit {A : Type} (now : nat) (key : string) (handler : M A) : M A :=
  let! allowed := limiter_hit now key in
  if allowed then handler else raise RateLimitExceeded.

(** ** The application *)

Inductive content : Type :=
| Json (body : json)
| Text (body : pystr).

Record http_response : Type :=
  { status_code : nat; response_content : content }.

Record request : Type := { client_host : string; number : pystr }.

(** The handler registered for [RateLimitExceeded]. *)
Definition rate_limit_handler : http_response :=
  {| status_code := 429;
     response_content := Json (JDict
       [(str "ok", JBool false);
        (str "reason", JStr (str "too_many_requests"));
        (str "detail", JStr (str "Rate limit exceeded"))]) |}.

(** Whether [json.dumps(v, allow_nan=False)], the rendering of a JSON
    response, accepts a value: it raises [ValueError] on a float that is
    infinite or not a number, wherever it sits in the value. *)
Fixpoint json_compliant (v : json) : bool :=
  match v with
  | JFloat (S754_infinity _) | JFloat S754_nan => false
  | JList l => forallb json_compliant l
  | JDict d => forallb (λ kv, match kv with (_, x) => json_compliant x end) d
  | _ => true
  end.

(** How the framework answers: a returned dict is a 200 JSON body when it
    can be rendered, and the server-error page when rendering it raises; an
    [HTTPException] is its status code with the body [{"detail": ...}];
    [RateLimitExceeded] goes to its registered handler; any other exception
    is the server-error page, the plain text [Internal Server Error]. *)
Definition respond (r : result json) : http_response :=
  match r with
  | Ok body =>
      if json_compliant body
      then {| status_code := 200; response_content := Json body |}
      else {| status_code := 500;
              response_content := Text (str "Internal Server Error") |}
  | Raise (HTTPException status_code detail) =>
      {| status_code := status_code;
         response_content := Json (JDict [(str "detail", JStr detail)]) |}
  | Raise RateLimitExceeded => rate_limit_handler
  | Raise _ =>
      {| status_code := 500;
         response_content := Text (str "Internal Server Error") |}
  end.

(** The route's endpoint, the handler under [@limiter.limit], as the
    framework calls it at time [now] for a request [GET /check-npi] that
    the middlewares have let through and whose [number] parameter is
    present.  A request that stops before (a host the trusted-host
    middleware refuses, a missing [number], which the framework answers
    itself) never gets here and is not part of [request]. *)
Definition get_check_npi (up : upstream) (now : nat) (req : request)
    (w : world) : http_response * world * list event :=
  let '(r, w', ev) := limit now (client_host req) (check_npi up (number req)) w in
  (respond r, w', ev).

(** The clients on which a request made its GETs. *)
Definition clients_used (ev : list event) : list nat :=
  omap (λ e, match e with ClientGet client _ _ => Some client | _ => None end) ev.

Definition is_log (e : event) : bool :=
  match e with LogError _ => true | _ => false end.

Definition start : world := {| limiter_storage := ∅; clients_made := 0 |}.

Definition registry_ok (doc : json) : upstream := λ _ _, Response 200 (JsonBody doc).

(** ** Definitions used in the statements *)

Definition call_events (w : world) (number : pystr) : list event :=
  [ClientOpen (clients_made w) HTTP_TIMEOUT HTTP_LIMITS;
   ClientGet (clients_made w) NPPES_API (query number);
   ClientClose (clients_made w)].

(** The status the mapper compares: [basic.get("status") or ""]. *)
Definition status_of (basic : list (pystr * json)) : json :=
  py_or (default JNull (dict_lookup basic (str "status"))) (JStr []).

Definition expected_shape (data : json) : bool :=
  match data with
  | JDict d =>
      let results := default JNull (dict_lookup d (str "results")) in
      negb (truthy results) ||
      match results with
      | JList (JDict e :: _) =>
          match default (JDict []) (dict_lookup e (str "basic")) with
          | JDict basic =>
              match status_of basic with
              | JStr _ => true
              | _ => false
              end
          | _ => false
          end
      | _ => false
      end
  | _ => false
  end.

Definition active_doc : list (pystr * json) :=
  [(str "result_count", JInt 2);
   (str "results",
    JList [JDict [(str "enumeration_type", JStr (str "NPI-1"));
                  (str "basic", JDict [(str "first_name", JStr (str "ANA"));
                                       (str "status", JStr (str "a"))])];
           JDict [(str "basic", JDict [(str "status", JStr (str "I"))])]])].

Definition body_field (c : content) (k : pystr) : option json :=
  match c with
  | Json (JDict d) => dict_lookup d k
  | _ => None
  end.

Definition registry_not_json : upstream :=
  λ _ _, Response 200 (NotJson (str "<html>maintenance</html>")).

Definition registry_bad_gateway : upstream :=
  λ _ _, Response 502 (NotJson (str "<html>maintenance</html>")).

Definition a_request : request :=
  {| client_host := "10.0.0.1"; number := str "1234567890" |}.

(** The requests of a list, served one after the other. *)
Fixpoint serve_all (up : upstream) (reqs : list (nat * request)) (w : world)
    : list nat :=
  match reqs with
  | [] => []
  | (now, req) :: reqs' =>
      let '(resp, w', _) := get_check_npi up now req w in
      status_code resp :: serve_all up reqs' w'
  end.

(** ** Configuration read at start-up

    The module reads two settings from the environment when it is loaded,
    after [load_dotenv()].  The environment is a finite map from names to
    values; [os.getenv] is its lookup. *)

(** *** [str.strip] and [str.split]

    [space_ranges] lists the whitespace of [str.strip()] (and of
    [str.isspace]), as inclusive ranges. *)

Definition space_ranges : list (N * N) :=
  [(9, 13); (28, 32); (133, 133); (160, 160); (5760, 5760); (8192, 8202);
   (8232, 8233); (8239, 8239); (8287, 8287); (12288, 12288)]%N.

Definition isspace_cp (c : N) : bool := existsb (in_range c) space_ranges.

(** [s.lstrip()] *)
Fixpoint lstrip (s : pystr) : pystr :=
  match s with
  | [] => []
  | c :: s' => if isspace_cp c then lstrip s' else s
  end.

(** [s.rstrip()] *)
Definition rstrip (s : pystr) : pystr := reverse (lstrip (reverse s)).

(** [s.strip()]: the whitespace at both ends is removed. *)
Definition strip (s : pystr) : pystr := rstrip (lstrip s).

(** [s.split(sep)] for a separator of one character: the pieces between
    the separators, empty pieces included; never the empty list. *)
Fixpoint split (sep : N) (s : pystr) : list pystr :=
  match s with
  | [] => [[]]
  | c :: s' =>
      if c =? sep then [] :: split sep s'
      else match split sep s' with
           | piece :: pieces => (c :: piece) :: pieces
           | [] => [[c]]
           end
  end.

(** [sep.join(pieces)] *)
Fixpoint join (sep : N) (pieces : list pystr) : pystr :=
  match pieces with
  | [] => []
  | [piece] => piece
  | piece :: pieces' => piece ++ sep :: join sep pieces'
  end.

Definition comma : N := 44.

(** *** The settings *)

Definition getenv (env : gmap string pystr) (name : string) : option pystr :=
  env !! name.

(** [if not v: v = dflt]: an unset and an empty setting take the default. *)
Definition or_default (v : option pystr) (dflt : pystr) : pystr :=
  match v with
  | Some (c :: s) => c :: s
  | Some [] | None => dflt
  end.

Definition NV_ORIGIN (env : gmap string pystr) : pystr :=
  or_default (getenv env "NV_ORIGIN") (str "http://localhost:3000").

(** [ALLOWED_HOSTS] while it is the setting's text, and once it is the list
    of hosts. *)
Definition ALLOWED_HOSTS_setting (env : gmap string pystr) : pystr :=
  or_default (getenv env "ALLOWED_HOSTS") (str "localhost,127.0.0.1").

Definition ALLOWED_HOSTS (env : gmap string pystr) : list pystr :=
  strip <$> split comma (ALLOWED_HOSTS_setting env).

(** The origins given to the CORS middleware. *)
Definition origins (env : gmap string pystr) : list pystr :=
  [NV_ORIGIN env; str "http://localhost:3000"; str "http://127.0.0.1:3000"].

(** The [allowed_hosts] given to the trusted-host middleware. *)
Definition trusted_hosts (env : gmap string pystr) : list pystr :=
  strip <$> ALLOWED_HOSTS env.

(** The number of occurrences of a character. *)
Fixpoint occurrences (c : N) (s : pystr) : nat :=
  match s with
  | [] => 0
  | x :: s' => if x =? c then S (occurrences c s') else occurrences c s'
  end.

(** Whether the limiter lets a request through, and the world once the
    limiter has counted it. *)
Definition allowed (now : nat) (req : request) (w : world) : bool :=
  ((storage_incr now (client_host req) (limiter_storage w)).1 <=? limit_amount)%nat.

Definition counted (now : nat) (req : request) (w : world) : world :=
  {| limiter_storage := (storage_incr now (client_host req) (limiter_storage w)).2;
     clients_made := clients_made w |}.

(** The answers to failed upstream calls and to exceptions nobody handles. *)
Definition detail_response (status_code : nat) (detail : string) : http_response :=
  {| status_code := status_code;
     response_content := Json (JDict [(str "detail", JStr (str detail))]) |}.

Definition server_error : http_response :=
  {| status_code := 500; response_content := Text (str "Internal Server Error") |}.

(** Inputs used in the examples. *)
Definition registry_down : upstream := λ _ _, TransportFailure (str "timed out").

Definition another_doc : list (pystr * json) :=
  [(str "results",
    JList [JDict [(str "number", JInt 1234567890);
                  (str "basic", JDict [(str "status", JStr (str "a"));
                                       (str "first_name", JStr (str "ANA"));
                                       (str "credential", JStr (str "MD"))]);
                  (str "enumeration_type", JStr (str "NPI-1"))]])].

Definition busy_world : world :=
  {| limiter_storage := {[ "10.0.0.1" := (100, 12)%nat; "10.0.0.2" := (130, 7)%nat ]};
     clients_made := 3 |}.

Definition burst : list (nat * request) :=
  (λ t, (100 + t, a_request)%nat) <$> seq 0 11.

(** * Properties *)

Arguments str : simpl never.
#[local] Opaque digit_ranges upper_runs upper_special.

(** ** The model at work *)

Example upper_examples :
  upper (str "a") = str "A" ∧ upper (str "i") = str "I" ∧
  upper [223] = str "SS" ∧ upper (str "A1-z") = str "A1-Z".
Proof. vm_compute. done. Qed.

Example mapper_examples :
  let n := str "1234567890" in
  response_mapper n (JDict []) = Ok (not_found n) ∧
  response_mapper n (JDict [(str "results", JList [])]) = Ok (not_found n) ∧
  response_mapper n (JDict [(str "results",
    JList [JDict [(str "basic", JDict [(str "status", JStr (str "a"))])]])])
    = Ok (found n (JStr []) JNull JNull) ∧
  response_mapper n (JDict [(str "results",
    JList [JDict [(str "basic", JDict [(str "status", JStr (str "I"))])]])])
    = Ok (inactive n) ∧
  response_mapper n (JDict [(str "results", JList [JDict [(str "basic", JNull)]])])
    = Raise AttributeError.
Proof. vm_compute. done. Qed.

Example run_not_found :
  get_check_npi (registry_ok (JDict [])) 0 {| client_host := "10.0.0.1"; number := str "1234567890" |} start
  = ({| status_code := 200; response_content := Json (not_found (str "1234567890")) |},
     {| limiter_storage := {[ "10.0.0.1" := (60, 1)%nat ]}; clients_made := 1 |},
     [ClientOpen 0 HTTP_TIMEOUT HTTP_LIMITS;
      ClientGet 0 NPPES_API [(str "version", str "2.1"); (str "number", str "1234567890")];
      ClientClose 0]).
Proof. vm_compute. done. Qed.

(** Eleven requests of one client within a minute: the eleventh is limited;
    once the window has ended the client is served again. *)
Example eleventh_request_limited :
  serve_all (registry_ok (JDict []))
    (((λ t, (t, a_request)) <$> seq 0 11) ++ [(59, a_request); (60, a_request)])%nat
    start
  = (replicate 10 200 ++ [429; 429; 200])%nat.
Proof. by vm_compute. Qed.

(** ** Unicode tables *)

Lemma existsb_none {A : Type} (p q : A → bool) (l : list A) :
  forallb q l = true → (∀ x, q x = true → p x = false) → existsb p l = false.
Proof.
  intros Hq Hpq. induction l as [|x l IH]; [done|].
  apply andb_prop in Hq as [Hx Hl]. simpl. rewrite (Hpq x Hx). auto.
Qed.

(** Below 128 the digits of [str.isdigit] are the ASCII digits. *)
Lemma isdigit_cp_ascii (c : N) : c < 128 → isdigit_cp c = ascii_digit c.
Proof.
  intros Hc. unfold isdigit_cp.
  change digit_ranges with ((48, 57) :: List.tail digit_ranges).
  cbn [existsb]. rewrite (existsb_none _ (λ r, 128 <=? r.1)).
  - unfold in_range, ascii_digit. simpl. apply orb_false_r.
  - by vm_compute.
  - intros [lo hi] Hlo. unfold in_range. simpl in *.
    apply N.leb_le in Hlo. apply andb_false_iff. left. apply N.leb_gt. lia.
Qed.

Lemma ascii_digit_isdigit_cp (c : N) : ascii_digit c = true → isdigit_cp c = true.
Proof.
  intros H. rewrite isdigit_cp_ascii; [done|].
  unfold ascii_digit in H. apply andb_prop in H as [_ H]. apply N.leb_le in H. lia.
Qed.

(** No character's uppercase is empty, and only [a] and [A] have the
    uppercase [A]. *)
Lemma upper_cp_nonempty (c : N) : upper_cp c ≠ [].
Proof.
  unfold upper_cp, assoc.
  destruct (List.find _ upper_special) as [[k u]|] eqn:Hs; simpl.
  - apply List.find_some in Hs as [Hin _].
    assert (Hall : forallb (λ p : N * list N, negb (bool_decide (p.2 = [])))
                     upper_special = true) by (by vm_compute).
    rewrite forallb_forall in Hall. specialize (Hall _ Hin). simpl in Hall.
    intros ->. done.
  - destruct (List.find _ upper_runs) as [[[[lo hi] stride] target]|]; done.
Qed.

Lemma upper_cp_A (c : N) : upper_cp c = [65] → c = 65 ∨ c = 97.
Proof.
  unfold upper_cp, assoc.
  destruct (List.find _ upper_special) as [[k u]|] eqn:Hs; simpl.
  - apply List.find_some in Hs as [Hin _].
    assert (Hall : forallb (λ p : N * list N, negb (bool_decide (p.2 = [65])))
                     upper_special = true) by (by vm_compute).
    rewrite forallb_forall in Hall. specialize (Hall _ Hin). simpl in Hall.
    intros ->. done.
  - destruct (List.find _ upper_runs) as [[[[lo hi] stride] target]|] eqn:Hr.
    + apply List.find_some in Hr as [Hin Hc].
      assert (Hall : forallb (λ r : N * N * N * N,
                 let '(lo, hi, _, target) := r in
                 (65 <? target) || ((lo =? 97) && (target =? 65)))
                 upper_runs = true) by (by vm_compute).
      rewrite forallb_forall in Hall. specialize (Hall _ Hin). simpl in Hall, Hc.
      intros [= Heq]. right.
      apply andb_prop in Hc as [Hc _]. apply andb_prop in Hc as [Hlo _].
      apply N.leb_le in Hlo.
      apply orb_prop in Hall as [Hall|Hall].
      * apply N.ltb_lt in Hall. lia.
      * apply andb_prop in Hall as [H1 H2].
        apply N.eqb_eq in H1, H2. lia.
    + intros [= ->]. by left.
Qed.

Lemma upper_A (s : pystr) : upper s = str "A" ↔ s = str "A" ∨ s = str "a".
Proof.
  split.
  - destruct s as [|c [|c' s]]; [done| |].
    + unfold upper. simpl. rewrite app_nil_r. intros H.
      apply upper_cp_A in H as [->| ->]; [by left | by right].
    + unfold upper. simpl. intros H. exfalso.
      pose proof (upper_cp_nonempty c) as Hc.
      pose proof (upper_cp_nonempty c') as Hc'.
      destruct (upper_cp c) as [|x xs]; [done|].
      destruct (upper_cp c') as [|y ys]; [done|].
      change (str "A") with [65] in H.
      injection H as _ H. by destruct xs.
  - by intros [-> | ->]; vm_compute.
Qed.

(** ** The validator *)

Lemma forallb_ascii_digit_isdigit (s : pystr) :
  forallb ascii_digit s = true → forallb isdigit_cp s = true.
Proof.
  induction s as [|c s IH]; [done|]. simpl. intros H.
  apply andb_prop in H as [Hc Hs]. by rewrite ascii_digit_isdigit_cp, IH.
Qed.

(** Ten ASCII digits pass the guard. *)
Lemma ten_ascii_digits_valid (s : pystr) :
  ten_ascii_digits s = true → invalid_format s = false.
Proof.
  unfold ten_ascii_digits, invalid_format, isdigit. intros H.
  apply andb_prop in H as [Hlen Hall]. apply Nat.eqb_eq in Hlen.
  rewrite bool_decide_eq_true_2 by done.
  destruct s as [|c s]; [done|].
  by rewrite forallb_ascii_digit_isdigit.
Qed.

(** X20: on strings of ASCII characters the handler's guard rejects exactly
    the strings that are not ten digits. *)
Lemma invalid_format_ascii (s : pystr) :
  Forall (λ c, c < 128) s → invalid_format s = negb (ten_ascii_digits s).
Proof.
  intros Hs. unfold invalid_format, ten_ascii_digits.
  assert (Hall : forallb isdigit_cp s = forallb ascii_digit s).
  { induction Hs as [|c s Hc _ IH]; [done|]. simpl.
    by rewrite isdigit_cp_ascii, IH. }
  unfold isdigit. destruct s as [|c s]; [done|]. rewrite Hall.
  generalize (c :: s). intros l.
  destruct (forallb ascii_digit l); cbn [negb orb].
  - rewrite andb_true_r. f_equal.
    destruct (decide (length l = 10%nat)) as [Hl|Hl].
    + rewrite bool_decide_eq_true_2 by done. symmetry. by apply Nat.eqb_eq.
    + rewrite bool_decide_eq_false_2 by done. symmetry. by apply Nat.eqb_neq.
  - by rewrite andb_false_r.
Qed.

(** ** The handler, case by case *)

Ltac run_handler :=
  unfold check_npi, try_except, async_with_client, finally, client_get,
    raise_for_status, response_json, logger_error, new_client, emit;
  unfold bind; cbn [ret fst snd].

Lemma check_npi_invalid up number w :
  invalid_format number = true →
  check_npi up number w
  = (Raise (HTTPException 400 (str "Invalid NPI number format")), w, []).
Proof. intros H. unfold check_npi. by rewrite H. Qed.

Section valid_number.
Context (up : upstream) (number : pystr) (w : world).
Hypothesis Hvalid : invalid_format number = false.

Lemma check_npi_transport_failure cause :
  up NPPES_API (query number) = TransportFailure cause →
  check_npi up number w
  = (Raise (HTTPException 500 (str "NPPES API request failed")),
     made_client w,
     call_events w number ++
     [LogError (str "Connection error while checking NPI " ++ number
                  ++ str ": " ++ cause)]).
Proof. intros Hup. run_handler. by rewrite Hvalid, Hup. Qed.

Lemma check_npi_status_error status_code body :
  up NPPES_API (query number) = Response status_code body →
  is_success status_code = false →
  check_npi up number w
  = (Raise (HTTPException 500 (str "NPPES API returned error")),
     made_client w,
     call_events w number ++
     [LogError (str "NPPES API returned error for NPI " ++ number
                  ++ str ": " ++ str (pretty status_code))]).
Proof. intros Hup Hs. run_handler. rewrite Hvalid, Hup. cbn [ret fst]. by rewrite Hs. Qed.

Lemma check_npi_not_json status_code raw :
  up NPPES_API (query number) = Response status_code (NotJson raw) →
  is_success status_code = true →
  check_npi up number w
  = (Raise JSONDecodeError, made_client w, call_events w number).
Proof. intros Hup Hs. run_handler. rewrite Hvalid, Hup. cbn [ret fst]. by rewrite Hs. Qed.

Lemma check_npi_json status_code doc :
  up NPPES_API (query number) = Response status_code (JsonBody doc) →
  is_success status_code = true →
  check_npi up number w
  = (response_mapper number doc, made_client w, call_events w number).
Proof. intros Hup Hs. run_handler. rewrite Hvalid, Hup. cbn [ret fst]. by rewrite Hs. Qed.

(** A valid number reaches the registry: one client, one GET, and after
    the client is closed nothing but log lines. *)
Lemma check_npi_valid_calls_upstream :
  ∃ r logs,
    check_npi up number w = (r, made_client w, call_events w number ++ logs)
    ∧ Forall (λ e, is_log e = true) logs.
Proof.
  destruct (up NPPES_API (query number)) as [cause|code body] eqn:Hup.
  - eexists _, [_]. split; [by apply check_npi_transport_failure|].
    by repeat constructor.
  - destruct (is_success code) eqn:Hs.
    + destruct body as [doc|raw]; eexists _, []; rewrite app_nil_r.
      * split; [by eapply check_npi_json|done].
      * split; [by eapply check_npi_not_json|done].
    + eexists _, [_]. split; [by eapply check_npi_status_error|].
      by repeat constructor.
Qed.
End valid_number.

Lemma clients_used_logs (logs : list event) :
  Forall (λ e, is_log e = true) logs → clients_used logs = [].
Proof.
  induction 1 as [|e logs He _ IH]; [done|].
  destruct e; try done.
Qed.

Lemma hit_allowed now key w :
  ((storage_incr now key (limiter_storage w)).1 ≤ limit_amount)%nat →
  ∀ (A : Type) (handler : M A),
    limit now key handler w
    = handler {| limiter_storage := (storage_incr now key (limiter_storage w)).2;
                 clients_made := clients_made w |}.
Proof.
  intros Hle A handler. unfold limit, bind, limiter_hit.
  destruct (storage_incr now key (limiter_storage w)) as [count storage].
  simpl in *. apply Nat.leb_le in Hle. rewrite Hle.
  destruct (handler _) as [[r w'] ev]. done.
Qed.

(** X19: an invalid number that passes the limiter is answered 400 with the
    detail [Invalid NPI number format]; no client is made and nothing is
    sent or logged. *)
Lemma invalid_number_rejected up now req w :
  ((storage_incr now (client_host req) (limiter_storage w)).1 ≤ limit_amount)%nat →
  invalid_format (number req) = true →
  ∃ w',
    get_check_npi up now req w
    = ({| status_code := 400;
          response_content :=
            Json (JDict [(str "detail", JStr (str "Invalid NPI number format"))]) |},
       w', []) ∧
    clients_made w' = clients_made w.
Proof.
  intros Hhit Hinv. unfold get_check_npi. rewrite hit_allowed by done.
  rewrite check_npi_invalid by done. by eexists.
Qed.

(** ** The response mapper, step by step *)

(** The mapper on a document whose [results] is a non-empty list that
    starts with an object whose [basic], if present, is an object and whose
    status is a string. *)
Lemma response_mapper_first number d e rest basic status :
  dict_lookup d (str "results") = Some (JList (JDict e :: rest)) →
  default (JDict []) (dict_lookup e (str "basic")) = JDict basic →
  status_of basic = JStr status →
  response_mapper number (JDict d)
  = Ok (if bool_decide (upper status = str "A")
        then found number
               (default (JStr []) (dict_lookup e (str "enumeration_type")))
               (default JNull (dict_lookup basic (str "first_name")))
               (default JNull (dict_lookup basic (str "last_name")))
        else inactive number).
Proof.
  intros Hres Hbasic Hstatus. unfold response_mapper, py_get, py_getitem.
  rewrite Hres. cbn [default rbind truthy negb py_first]. rewrite Hbasic.
  cbn [rbind]. fold (status_of basic). rewrite Hstatus. cbn [py_upper rbind].
  by destruct (bool_decide (upper status = str "A")).
Qed.

Lemma response_mapper_falsy number d :
  truthy (default JNull (dict_lookup d (str "results"))) = false →
  response_mapper number (JDict d) = Ok (not_found number).
Proof.
  intros H. unfold response_mapper, py_get. cbn [rbind]. by rewrite H.
Qed.

(** Every document the mapper answers has one of the two shapes above. *)
Lemma response_mapper_ok_inv number data body :
  response_mapper number data = Ok body →
  ∃ d, data = JDict d ∧
    (truthy (default JNull (dict_lookup d (str "results"))) = false ∨
     ∃ e rest basic status,
       dict_lookup d (str "results") = Some (JList (JDict e :: rest)) ∧
       default (JDict []) (dict_lookup e (str "basic")) = JDict basic ∧
       status_of basic = JStr status).
Proof.
  intros H. destruct data as [| | | | | |d]; try done. exists d. split; [done|].
  destruct (truthy (default JNull (dict_lookup d (str "results")))) eqn:Ht;
    [right|by left].
  unfold response_mapper, py_get, py_getitem in H. cbn [rbind] in H.
  rewrite Ht in H. cbn [negb] in H.
  destruct (dict_lookup d (str "results")) as [results|]; [|done].
  cbn [rbind default] in *.
  destruct results as [| | | |[|c s]|[|entry rest]|]; try done.
  cbn [py_first rbind] in H.
  destruct entry as [| | | | | |e]; try done. cbn [rbind] in H.
  destruct (default (JDict []) (dict_lookup e (str "basic")))
    as [| | | | | |basic] eqn:Hbasic; try done.
  cbn [rbind] in H. fold (status_of basic) in H.
  destruct (status_of basic) as [| | | |status| |] eqn:Hstatus; try done.
  by exists e, rest, basic, status.
Qed.

(** Outside the expected shape the mapper raises. *)
Lemma mapper_answers_only_expected_shape number data body :
  response_mapper number data = Ok body → expected_shape data = true.
Proof.
  intros H. destruct (response_mapper_ok_inv _ _ _ H) as (d & -> & [Hf|Hs]).
  - unfold expected_shape. by rewrite Hf.
  - destruct Hs as (e & rest & basic & status & Hres & Hbasic & Hstatus).
    unfold expected_shape. rewrite Hres. cbn [default from_option id].
    rewrite Hbasic, Hstatus. apply orb_true_r.
Qed.

(** ** The specification's properties *)

(** C1 (the code departs from the claim): ten ARABIC-INDIC DIGIT ZERO
    characters (U+0660) do not match [^[0-9]{10}$], yet [str.isdigit] holds
    of them, the guard lets them through, and the handler calls the
    registry with them whatever the registry answers; the request is
    answered 200, not 400. *)
Theorem check_npi_accepts_non_ascii_digits :
  let number := replicate 10 1632 in
  ten_ascii_digits number = false ∧
  invalid_format number = false ∧
  (∀ up w, clients_used (check_npi up number w).2 = [clients_made w]) ∧
  get_check_npi (registry_ok (JDict [])) 0
    {| client_host := "10.0.0.1"; number := number |} start
  = ({| status_code := 200; response_content := Json (not_found number) |},
     {| limiter_storage := {[ "10.0.0.1" := (60, 1)%nat ]}; clients_made := 1 |},
     call_events start number).
Proof.
  intros number. split_and!; [by vm_compute | by vm_compute | | by vm_compute].
  intros up w.
  destruct (check_npi_valid_calls_upstream up number w) as (r & logs & -> & Hlogs);
    [by vm_compute|].
  cbn [snd]. unfold clients_used. rewrite omap_app.
  fold (clients_used logs). rewrite (clients_used_logs logs Hlogs).
  reflexivity.
Qed.

(** C2, as stated, fails: a non-empty [results] array does not make the
    status comparable.  On a first result whose status is [true] the mapper
    does not return the Inactive body, it raises [AttributeError] (a boolean
    has no [upper]). *)
Lemma status_compare_raises_on_boolean_status :
  response_mapper (str "1234567890")
    (JDict [(str "results",
             JList [JDict [(str "basic", JDict [(str "status", JBool true)])]])])
  = Raise AttributeError.
Proof. reflexivity. Qed.

(** C2, amended: on a document whose [results] is a non-empty array starting
    with an object whose [basic] is absent or an object and whose status,
    [basic.get("status") or ""], is a string, the mapper compares the status
    with ["A"] after uppercasing it: a status whose uppercase is not ["A"]
    gives the Inactive body [{ok: false, reason: "inactive", number}], the
    status ["A"] or ["a"] gives the Found body, [ok] true with the number and
    with [type], [first_name] and [last_name] read from [results[0]]; and
    the uppercase is ["A"] for these two statuses only. *)
Theorem status_compared_case_insensitively number d e rest basic status :
  dict_lookup d (str "results") = Some (JList (JDict e :: rest)) →
  default (JDict []) (dict_lookup e (str "basic")) = JDict basic →
  status_of basic = JStr status →
  (upper status ≠ str "A" →
     response_mapper number (JDict d) = Ok (inactive number)) ∧
  (status = str "A" ∨ status = str "a" →
     response_mapper number (JDict d)
     = Ok (found number
             (default (JStr []) (dict_lookup e (str "enumeration_type")))
             (default JNull (dict_lookup basic (str "first_name")))
             (default JNull (dict_lookup basic (str "last_name"))))) ∧
  (upper status = str "A" ↔ status = str "A" ∨ status = str "a") ∧
  inactive number
  = JDict [(str "ok", JBool false); (str "reason", JStr (str "inactive"));
           (str "number", JStr number)] ∧
  (∀ type_ first_name last_name,
     found number type_ first_name last_name
     = JDict [(str "ok", JBool true); (str "number", JStr number);
              (str "type", type_); (str "first_name", first_name);
              (str "last_name", last_name)]).
Proof.
  intros Hres Hbasic Hstatus.
  rewrite (response_mapper_first number d e rest basic status) by done.
  split_and!.
  - intros Hne. by rewrite bool_decide_eq_false_2.
  - intros HA. apply upper_A in HA. by rewrite bool_decide_eq_true_2.
  - apply upper_A.
  - reflexivity.
  - reflexivity.
Qed.

Lemma status_compared_case_insensitively_witness :
  response_mapper (str "1234567890") (JDict active_doc)
  = Ok (found (str "1234567890") (JStr (str "NPI-1")) (JStr (str "ANA")) JNull).
Proof.
  apply (status_compared_case_insensitively (str "1234567890") active_doc
           [(str "enumeration_type", JStr (str "NPI-1"));
            (str "basic", JDict [(str "first_name", JStr (str "ANA"));
                                 (str "status", JStr (str "a"))])]
           [JDict [(str "basic", JDict [(str "status", JStr (str "I"))])]]
           [(str "first_name", JStr (str "ANA")); (str "status", JStr (str "a"))]
           (str "a")); [reflexivity | reflexivity | reflexivity |].
  right. reflexivity.
Defined.



(** C4 (the code departs from the claim): when the registry answers 200
    with a body that is not JSON, [response.json()] raises
    [JSONDecodeError], which neither [except] clause of the handler names:
    the exception leaves the handler, nothing is logged, and the caller gets
    the framework's plain-text server-error page instead of the handler's
    [{"detail": ...}] body.  The same body under status 502 takes the
    [HTTPStatusError] path, which logs the number and the cause and answers
    with the generic body. *)
Theorem non_json_body_is_not_caught :
  check_npi registry_not_json (number a_request) start
  = (Raise JSONDecodeError, made_client start,
     call_events start (number a_request)) ∧
  get_check_npi registry_not_json 0 a_request start
  = ({| status_code := 500;
        response_content := Text (str "Internal Server Error") |},
     {| limiter_storage := {[ "10.0.0.1" := (60, 1)%nat ]}; clients_made := 1 |},
     call_events start (number a_request)) ∧
  get_check_npi registry_bad_gateway 0 a_request start
  = ({| status_code := 500;
        response_content :=
          Json (JDict [(str "detail", JStr (str "NPPES API returned error"))]) |},
     {| limiter_storage := {[ "10.0.0.1" := (60, 1)%nat ]}; clients_made := 1 |},
     call_events start (number a_request) ++
     [LogError (str "NPPES API returned error for NPI 1234567890: 502")]).
Proof. by vm_compute. Qed.

(** C5: the mapper's result is the Found body exactly on a document whose
    [results] starts with an object whose status is ["A"] or ["a"]; the body
    then carries as [type] the entry's [enumeration_type], the empty string
    when the entry has none, and as [first_name] and [last_name] the values
    under [basic], null when [basic] has none: a missing name or type never
    turns the Found outcome into a failure. *)
Theorem found_carries_fields number data type_ first_name last_name :
  response_mapper number data = Ok (found number type_ first_name last_name) ↔
  ∃ d e rest basic status,
    data = JDict d ∧
    dict_lookup d (str "results") = Some (JList (JDict e :: rest)) ∧
    default (JDict []) (dict_lookup e (str "basic")) = JDict basic ∧
    status_of basic = JStr status ∧
    (status = str "A" ∨ status = str "a") ∧
    type_ = default (JStr []) (dict_lookup e (str "enumeration_type")) ∧
    first_name = default JNull (dict_lookup basic (str "first_name")) ∧
    last_name = default JNull (dict_lookup basic (str "last_name")).
Proof.
  split.
  - intros H. destruct (response_mapper_ok_inv _ _ _ H) as (d & -> & [Hf|Hs]).
    + rewrite response_mapper_falsy in H by done. done.
    + destruct Hs as (e & rest & basic & status & Hres & Hbasic & Hstatus).
      rewrite (response_mapper_first number d e rest basic status) in H by done.
      exists d, e, rest, basic, status.
      destruct (bool_decide (upper status = str "A")) eqn:HA; [|done].
      apply bool_decide_eq_true_1, upper_A in HA.
      injection H as <- <- <-. done.
  - intros (d & e & rest & basic & status & -> & Hres & Hbasic & Hstatus & HA
            & -> & -> & ->).
    rewrite (response_mapper_first number d e rest basic status) by done.
    apply upper_A in HA. by rewrite bool_decide_eq_true_2.
Qed.

(** C6: a request from a client whose key already counts 10 hits in its
    running window is answered by the [RateLimitExceeded] handler, status
    429 with [ok] false and [reason] ["too_many_requests"], before the
    handler's validation and upstream call: no event happens and no client
    is made, whatever the number is. *)
Theorem rate_limited_before_handler up now req w expiry count :
  limiter_storage w !! client_host req = Some (expiry, count) →
  (now < expiry)%nat →
  (limit_amount ≤ count)%nat →
  ∃ w',
    get_check_npi up now req w = (rate_limit_handler, w', []) ∧
    clients_made w' = clients_made w ∧
    status_code rate_limit_handler = 429%nat ∧
    body_field (response_content rate_limit_handler) (str "ok")
    = Some (JBool false) ∧
    body_field (response_content rate_limit_handler) (str "reason")
    = Some (JStr (str "too_many_requests")).
Proof.
  intros Hkey Hnow Hcount. unfold get_check_npi, limit, bind, limiter_hit,
    storage_incr. rewrite Hkey.
  destruct (expiry <=? now)%nat eqn:He; [apply Nat.leb_le in He; lia|].
  destruct (S count <=? limit_amount)%nat eqn:Hc; [apply Nat.leb_le in Hc; lia|].
  cbn [raise respond]. eexists. split_and!; done.
Qed.

Lemma rate_limited_before_handler_witness :
  ∃ w',
    get_check_npi registry_not_json 30
      {| client_host := "10.0.0.1"; number := str "not a number" |}
      {| limiter_storage := {[ "10.0.0.1" := (60, 10)%nat ]}; clients_made := 10 |}
    = (rate_limit_handler, w', []) ∧ clients_made w' = 10%nat.
Proof.
  destruct (rate_limited_before_handler registry_not_json 30
              {| client_host := "10.0.0.1"; number := str "not a number" |}
              {| limiter_storage := {[ "10.0.0.1" := (60, 10)%nat ]};
                 clients_made := 10 |} 60 10)
    as (w' & H & Hc & _); [reflexivity | unfold limit_amount; lia..|].
  exists w'. split; [exact H | exact Hc].
Defined.

(** C7: two documents whose [results] are non-empty arrays with the same
    first element are mapped to the same result, whatever follows the first
    element. *)
Theorem only_first_result_considered number d1 d2 entry rest1 rest2 :
  dict_lookup d1 (str "results") = Some (JList (entry :: rest1)) →
  dict_lookup d2 (str "results") = Some (JList (entry :: rest2)) →
  response_mapper number (JDict d1) = response_mapper number (JDict d2).
Proof.
  intros H1 H2. unfold response_mapper, py_get, py_getitem.
  rewrite H1, H2. done.
Qed.

Lemma only_first_result_considered_witness :
  response_mapper (str "1234567890") (JDict active_doc)
  = response_mapper (str "1234567890")
      (JDict [(str "results",
               JList [JDict [(str "enumeration_type", JStr (str "NPI-1"));
                             (str "basic",
                              JDict [(str "first_name", JStr (str "ANA"));
                                     (str "status", JStr (str "a"))])]])]).
Proof.
  apply (only_first_result_considered (str "1234567890") active_doc _
           (JDict [(str "enumeration_type", JStr (str "NPI-1"));
                   (str "basic", JDict [(str "first_name", JStr (str "ANA"));
                                        (str "status", JStr (str "a"))])])
           [JDict [(str "basic", JDict [(str "status", JStr (str "I"))])]] []);
    reflexivity.
Defined.

(** C8, as stated, fails: a document whose status is a number makes the
    mapper raise [AttributeError] (a number has no [upper]). *)
Lemma mapper_raises_on_numeric_status :
  response_mapper (str "1234567890")
    (JDict [(str "results",
             JList [JDict [(str "basic", JDict [(str "status", JInt 1)])]])])
  = Raise AttributeError.
Proof. reflexivity. Qed.

(** C8, amended: on every document of the expected shape, an object whose
    [results] is absent or falsy, or is an array starting with an object
    whose [basic] is absent or an object and whose status is absent, falsy
    or a string, the mapper returns one of the LookupResult bodies; members
    it does not read, present or not, never make it raise. *)
Theorem mapper_total_on_expected_shape number data :
  expected_shape data = true →
  ∃ body, response_mapper number data = Ok body ∧ LookupResult number body.
Proof.
  destruct data as [| | | | | |d]; try done. unfold expected_shape.
  intros H. apply orb_prop in H as [H|H].
  - apply negb_true_iff in H. rewrite response_mapper_falsy by done.
    eexists. split; [done|constructor].
  - destruct (dict_lookup d (str "results")) as [results|] eqn:Hres; [|done].
    cbn [default from_option id] in H.
    destruct results as [| | | | |[|[| | | | | |e] rest]|]; try done.
    destruct (default (JDict []) (dict_lookup e (str "basic")))
      as [| | | | | |basic] eqn:Hbasic; try done.
    destruct (status_of basic) as [| | | |status| |] eqn:Hstatus; try done.
    rewrite (response_mapper_first number d e rest basic status) by done.
    eexists. split; [done|]. destruct (bool_decide _); constructor.
Qed.

Lemma mapper_total_on_expected_shape_witness :
  ∃ body,
    response_mapper (str "1234567890")
      (JDict [(str "results", JList [JDict [(str "taxonomies", JList [])]]);
              (str "Errors", JNull)])
    = Ok body ∧ LookupResult (str "1234567890") body.
Proof.
  apply (mapper_total_on_expected_shape (str "1234567890")
           (JDict [(str "results", JList [JDict [(str "taxonomies", JList [])]]);
                   (str "Errors", JNull)])).
  reflexivity.
Defined.

(** C9, as stated, fails: two requests served one after the other make
    their GETs on two different clients, each opened and closed within its
    request; no pool outlives a request. *)
Lemma each_request_makes_its_own_client :
  ∃ r1 w1 r2 w2,
    get_check_npi (registry_ok (JDict [])) 0 a_request start
    = (r1, w1, [ClientOpen 0 HTTP_TIMEOUT HTTP_LIMITS;
                ClientGet 0 NPPES_API (query (number a_request));
                ClientClose 0]) ∧
    get_check_npi (registry_ok (JDict [])) 1 a_request w1
    = (r2, w2, [ClientOpen 1 HTTP_TIMEOUT HTTP_LIMITS;
                ClientGet 1 NPPES_API (query (number a_request));
                ClientClose 1]).
Proof. eexists _, _, _, _. split; by vm_compute. Qed.

(** C9, amended: every request that passes the limiter and the validator
    constructs a client of its own, the next one never made before, with the
    process-wide timeout and pool limits (at most 10 connections, at most 5
    kept alive), makes one GET on it and closes it; after that it only
    logs. *)
Theorem each_request_uses_its_own_bounded_client up now req w :
  ((storage_incr now (client_host req) (limiter_storage w)).1 ≤ limit_amount)%nat →
  invalid_format (number req) = false →
  max_connections HTTP_LIMITS = 10%nat ∧
  max_keepalive_connections HTTP_LIMITS = 5%nat ∧
  ∃ resp w' logs,
    get_check_npi up now req w
    = (resp, w',
       ClientOpen (clients_made w) HTTP_TIMEOUT HTTP_LIMITS
       :: ClientGet (clients_made w) NPPES_API (query (number req))
       :: ClientClose (clients_made w) :: logs) ∧
    Forall (λ e, is_log e = true) logs ∧
    clients_made w' = S (clients_made w).
Proof.
  intros Hhit Hvalid. split_and!; [done..|].
  unfold get_check_npi. rewrite hit_allowed by done.
  set (w0 := {| limiter_storage := _; clients_made := clients_made w |}).
  destruct (check_npi_valid_calls_upstream up (number req) w0 Hvalid)
    as (r & logs & -> & Hlogs).
  by exists (respond r), (made_client w0), logs.
Qed.

Lemma each_request_uses_its_own_bounded_client_witness :
  ∃ resp w' logs,
    get_check_npi registry_bad_gateway 0 a_request start
    = (resp, w',
       ClientOpen 0 HTTP_TIMEOUT HTTP_LIMITS
       :: ClientGet 0 NPPES_API (query (number a_request))
       :: ClientClose 0 :: logs) ∧
    Forall (λ e, is_log e = true) logs ∧
    clients_made w' = 1%nat.
Proof.
  apply (each_request_uses_its_own_bounded_client registry_bad_gateway 0
           a_request start); [vm_compute; lia | reflexivity].
Defined.

(** C10, as stated, fails: under a null [basic] the status is absent too,
    yet the mapper does not return the Inactive body: [entry.get("basic",
    {})] is [None], which has no [get], and the mapper raises
    [AttributeError]. *)
Lemma null_basic_raises :
  response_mapper (str "1234567890")
    (JDict [(str "results", JList [JDict [(str "basic", JNull)]])])
  = Raise AttributeError.
Proof. reflexivity. Qed.

(** C10, amended: when [results[0]] is an object whose [basic] is absent or
    an object, and [basic] has no [status] or a null one, the status the
    mapper compares is the empty string and the result is the Inactive body
    [{ok: false, reason: "inactive", number}], not an exception. *)
Theorem missing_status_is_inactive number d e rest basic :
  dict_lookup d (str "results") = Some (JList (JDict e :: rest)) →
  default (JDict []) (dict_lookup e (str "basic")) = JDict basic →
  dict_lookup basic (str "status") = None ∨
  dict_lookup basic (str "status") = Some JNull →
  status_of basic = JStr [] ∧
  response_mapper number (JDict d) = Ok (inactive number) ∧
  inactive number
  = JDict [(str "ok", JBool false); (str "reason", JStr (str "inactive"));
           (str "number", JStr number)].
Proof.
  intros Hres Hbasic Hstatus.
  assert (Hs : status_of basic = JStr []).
  { unfold status_of. by destruct Hstatus as [-> | ->]. }
  split_and!; [done| |reflexivity].
  by rewrite (response_mapper_first number d e rest basic []).
Qed.

Lemma missing_status_is_inactive_witness :
  response_mapper (str "1234567890")
    (JDict [(str "results",
             JList [JDict [(str "basic", JDict [(str "status", JNull)])]])])
  = Ok (inactive (str "1234567890")).
Proof.
  apply (missing_status_is_inactive (str "1234567890")
           [(str "results",
             JList [JDict [(str "basic", JDict [(str "status", JNull)])]])]
           [(str "basic", JDict [(str "status", JNull)])] []
           [(str "status", JNull)]); [reflexivity | reflexivity |].
  right. reflexivity.
Defined.

(** ** More properties of the code *)

(** *** Start-up configuration *)

Lemma lstrip_fixed (s : pystr) :
  head s = None ∨ (∃ c, head s = Some c ∧ isspace_cp c = false) → lstrip s = s.
Proof.
  destruct s as [|c s]; [done|]. intros [?|(c' & [= <-] & Hc)]; [done|].
  simpl. by rewrite Hc.
Qed.

Lemma lstrip_head (s : pystr) :
  head (lstrip s) = None ∨ ∃ c, head (lstrip s) = Some c ∧ isspace_cp c = false.
Proof.
  induction s as [|c s IH]; [by left|]. simpl.
  destruct (isspace_cp c) eqn:Hc; [done|]. right. by exists c.
Qed.

Lemma lstrip_suffix (s : pystr) : lstrip s `suffix_of` s.
Proof.
  induction s as [|c s IH]; [done|]. simpl.
  destruct (isspace_cp c); [by apply suffix_cons_r | done].
Qed.

Lemma lstrip_idemp (s : pystr) : lstrip (lstrip s) = lstrip s.
Proof. apply lstrip_fixed, lstrip_head. Qed.

Lemma lstrip_strip (s : pystr) : lstrip (strip s) = strip s.
Proof.
  unfold strip, rstrip.
  set (t := lstrip s). set (u := lstrip (reverse t)).
  apply lstrip_fixed.
  destruct (lstrip_suffix (reverse t)) as [k Hk]. fold u in Hk.
  apply (f_equal reverse) in Hk. rewrite reverse_involutive, reverse_app in Hk.
  destruct (reverse u) as [|c r] eqn:Hr; [by left|]. right. exists c.
  split; [done|]. pose proof (lstrip_head s) as Ht. fold t in Ht.
  rewrite Hk in Ht. simpl in Ht. destruct Ht as [?|(c' & [= <-] & ?)]; done.
Qed.

Lemma strip_idemp (s : pystr) : strip (strip s) = strip s.
Proof.
  unfold strip at 1. rewrite lstrip_strip. unfold strip, rstrip.
  by rewrite reverse_involutive, lstrip_idemp.
Qed.

Lemma strip_head (s : pystr) (c : N) :
  head (strip s) = Some c → isspace_cp c = false.
Proof.
  intros H. rewrite <- lstrip_strip in H.
  destruct (lstrip_head (strip s)) as [Hn|(c' & Hc & Hs)]; congruence.
Qed.

Lemma strip_last (s : pystr) (c : N) :
  last (strip s) = Some c → isspace_cp c = false.
Proof.
  unfold strip, rstrip. rewrite last_reverse. intros H.
  destruct (lstrip_head (reverse (lstrip s))) as [Hn|(c' & Hc & Hs)]; congruence.
Qed.

Lemma strip_subseteq (s : pystr) : strip s ⊆ s.
Proof.
  intros c. unfold strip, rstrip. rewrite elem_of_reverse. intros H.
  apply (λ H, elem_of_suffix _ _ _ H (lstrip_suffix _)) in H.
  rewrite elem_of_reverse in H.
  exact (elem_of_suffix _ _ _ H (lstrip_suffix _)).
Qed.

Lemma split_nonempty (sep : N) (s : pystr) : split sep s ≠ [].
Proof.
  destruct s as [|c s]; [done|]. simpl.
  destruct (c =? sep); [done|]. by destruct (split sep s).
Qed.

Lemma split_length (sep : N) (s : pystr) :
  length (split sep s) = S (occurrences sep s).
Proof.
  induction s as [|c s IH]; [done|]. cbn [split occurrences].
  destruct (c =? sep); cbn [length]; [by rewrite IH|].
  rewrite <- IH. pose proof (split_nonempty sep s). by destruct (split sep s).
Qed.

Lemma split_no_sep (sep : N) (s : pystr) :
  Forall (λ piece, sep ∉ piece) (split sep s).
Proof.
  induction s as [|c s IH]; simpl.
  - repeat constructor. apply not_elem_of_nil.
  - destruct (N.eqb_spec c sep) as [->|Hne].
    + constructor; [apply not_elem_of_nil | done].
    + destruct (split sep s) as [|piece pieces].
      * repeat constructor. rewrite list_elem_of_singleton. congruence.
      * inversion_clear IH as [|? ? Hp Hps]. constructor; [|done].
        rewrite elem_of_cons. intros [?|?]; [congruence|done].
Qed.

Lemma split_app_no_sep (sep : N) (piece s : pystr) :
  sep ∉ piece →
  split sep (piece ++ sep :: s) = piece :: split sep s.
Proof.
  induction piece as [|c piece IH]; simpl; intros Hp.
  - by rewrite N.eqb_refl.
  - rewrite not_elem_of_cons in Hp. destruct Hp as [Hc Hp].
    destruct (N.eqb_spec c sep) as [->|_]; [done|]. by rewrite IH.
Qed.

Lemma split_no_sep_one (sep : N) (piece : pystr) :
  sep ∉ piece → split sep piece = [piece].
Proof.
  induction piece as [|c piece IH]; simpl; intros Hp; [done|].
  rewrite not_elem_of_cons in Hp. destruct Hp as [Hc Hp].
  destruct (N.eqb_spec c sep) as [->|_]; [done|]. by rewrite IH.
Qed.

Lemma split_join (sep : N) (pieces : list pystr) :
  pieces ≠ [] → Forall (λ piece, sep ∉ piece) pieces →
  split sep (join sep pieces) = pieces.
Proof.
  intros Hne Hall. induction Hall as [|piece pieces Hp Hps IH]; [done|].
  destruct pieces as [|piece' pieces].
  - by apply split_no_sep_one.
  - change (join sep (piece :: piece' :: pieces))
      with (piece ++ sep :: join sep (piece' :: pieces)).
    rewrite split_app_no_sep by done. by rewrite IH.
Qed.

(** X1: the hosts given to the trusted-host middleware are the entries of
    [ALLOWED_HOSTS] themselves: stripping them a second time changes
    nothing. *)
Theorem trusted_hosts_are_allowed_hosts (env : gmap string pystr) :
  trusted_hosts env = ALLOWED_HOSTS env.
Proof.
  unfold trusted_hosts, ALLOWED_HOSTS. rewrite <- list_fmap_compose.
  apply list_fmap_ext. intros _ s _. apply strip_idemp.
Qed.

(** X2: no entry of [ALLOWED_HOSTS] contains a comma or begins or ends with
    whitespace, whatever the setting is. *)
Theorem allowed_hosts_are_clean (env : gmap string pystr) (host : pystr) :
  host ∈ ALLOWED_HOSTS env →
  (comma ∉ host) ∧
  (∀ c, head host = Some c → isspace_cp c = false) ∧
  (∀ c, last host = Some c → isspace_cp c = false).
Proof.
  unfold ALLOWED_HOSTS. intros (piece & -> & Hin)%list_elem_of_fmap.
  split_and!.
  - intros Hc. apply strip_subseteq in Hc.
    pose proof (split_no_sep comma (ALLOWED_HOSTS_setting env)) as Hall.
    rewrite Forall_forall in Hall. by apply (Hall piece).
  - apply strip_head.
  - apply strip_last.
Qed.

Lemma allowed_hosts_are_clean_witness :
  (comma ∉ str "api.example.org") ∧
  (∀ c, head (str "api.example.org") = Some c → isspace_cp c = false) ∧
  (∀ c, last (str "api.example.org") = Some c → isspace_cp c = false).
Proof.
  apply (allowed_hosts_are_clean
           {[ "ALLOWED_HOSTS" := str " api.example.org ,localhost" ]}).
  vm_compute. left.
Defined.

(** X3: [ALLOWED_HOSTS] has one entry more than the setting has commas: it
    is never empty and no piece of the setting is dropped, an empty one
    neither. *)
Theorem allowed_hosts_count (env : gmap string pystr) :
  length (ALLOWED_HOSTS env) = S (occurrences comma (ALLOWED_HOSTS_setting env)).
Proof. unfold ALLOWED_HOSTS. by rewrite length_fmap, split_length. Qed.

(** X4: with [ALLOWED_HOSTS] unset or set to the empty string the hosts are
    [localhost] and [127.0.0.1]. *)
Theorem allowed_hosts_default (env : gmap string pystr) :
  getenv env "ALLOWED_HOSTS" = None ∨ getenv env "ALLOWED_HOSTS" = Some [] →
  ALLOWED_HOSTS env = [str "localhost"; str "127.0.0.1"].
Proof.
  intros H. unfold ALLOWED_HOSTS, ALLOWED_HOSTS_setting.
  by destruct H as [-> | ->]; vm_compute.
Qed.

Lemma allowed_hosts_default_witness :
  ALLOWED_HOSTS {[ "NV_ORIGIN" := str "https://app.example.org";
                   "ALLOWED_HOSTS" := [] ]}
  = [str "localhost"; str "127.0.0.1"].
Proof. apply allowed_hosts_default. right. reflexivity. Defined.

(** X5: a setting that is a comma-joined list of hosts, none of them with a
    comma, is read back as the list of these hosts, each stripped of the
    whitespace around it. *)
Theorem allowed_hosts_of_joined (env : gmap string pystr) (hosts : list pystr) :
  Forall (λ host, comma ∉ host) hosts →
  join comma hosts ≠ [] →
  getenv env "ALLOWED_HOSTS" = Some (join comma hosts) →
  ALLOWED_HOSTS env = strip <$> hosts.
Proof.
  intros Hall Hne Henv. unfold ALLOWED_HOSTS, ALLOWED_HOSTS_setting.
  rewrite Henv. destruct (join comma hosts) as [|c s] eqn:Hj; [done|].
  cbn [or_default]. rewrite <- Hj, split_join; [done| |done].
  by intros ->.
Qed.

Lemma allowed_hosts_of_joined_witness :
  ALLOWED_HOSTS {[ "ALLOWED_HOSTS" := str "api.example.org, localhost ,," ]}
  = [str "api.example.org"; str "localhost"; []; []].
Proof.
  apply (allowed_hosts_of_joined
           {[ "ALLOWED_HOSTS" := str "api.example.org, localhost ,," ]}
           [str "api.example.org"; str " localhost "; []; []]).
  - apply (bool_decide_unpack _). vm_compute. exact I.
  - apply (bool_decide_unpack _). vm_compute. exact I.
  - reflexivity.
Defined.

(** X6: the CORS origins always hold the two localhost origins and the value
    of [NV_ORIGIN], and never an empty origin. *)
Theorem origins_allow_localhost (env : gmap string pystr) :
  str "http://localhost:3000" ∈ origins env ∧
  str "http://127.0.0.1:3000" ∈ origins env ∧
  NV_ORIGIN env ∈ origins env ∧
  ([] ∉ origins env).
Proof.
  unfold origins. split_and!; [set_solver..|].
  rewrite !not_elem_of_cons. split_and!; [|done|done|apply not_elem_of_nil].
  unfold NV_ORIGIN, or_default. by destruct (getenv env "NV_ORIGIN") as [[|c s]|].
Qed.

(** *** The endpoint, case by case *)

Lemma limit_allowed now req w (A : Type) (handler : M A) :
  allowed now req w = true →
  limit now (client_host req) handler w = handler (counted now req w).
Proof.
  intros H. apply hit_allowed. by apply Nat.leb_le.
Qed.

Lemma limit_denied now req w (A : Type) (handler : M A) :
  allowed now req w = false →
  limit now (client_host req) handler w
  = (Raise RateLimitExceeded, counted now req w, []).
Proof.
  unfold allowed, counted, limit, bind, limiter_hit. intros H.
  destruct (storage_incr now (client_host req) (limiter_storage w))
    as [count storage]. simpl in *. by rewrite H.
Qed.

(** The mapper raises nothing but what reading a member of the wrong type
    raises. *)
Lemma response_mapper_raises number data e :
  response_mapper number data = Raise e →
  e = AttributeError ∨ e = KeyError ∨ e = TypeError.
Proof.
  intros H. unfold response_mapper in H.
  destruct data as [| | | | | |d]; cbn [py_get rbind] in H;
    try (injection H as <-; auto; fail).
  destruct (truthy (default JNull (dict_lookup d (str "results")))) eqn:Ht;
    cbn [negb] in H; [|done].
  unfold py_getitem in H.
  destruct (dict_lookup d (str "results")) as [results|]; [|done].
  cbn [rbind default from_option id] in *.
  destruct results as [| | | |[|c s]|[|entry rest]|]; cbn [py_first rbind] in H;
    try done; try (injection H as <-; auto; fail).
  destruct entry as [| | | | | |en]; cbn [py_get rbind] in H;
    try (injection H as <-; auto; fail).
  destruct (default (JDict []) (dict_lookup en (str "basic")))
    as [| | | | | |basic]; cbn [py_get rbind] in H;
    try (injection H as <-; auto; fail).
  fold (status_of basic) in H.
  destruct (status_of basic) as [| | | |status| |]; cbn [py_upper rbind] in H;
    try (injection H as <-; auto; fail).
  by destruct (bool_decide (upper status = str "A")).
Qed.

Lemma respond_mapper_raise number data e :
  response_mapper number data = Raise e → respond (Raise e) = server_error.
Proof. by intros [-> | [-> | ->]]%response_mapper_raises. Qed.

(** What a request that passes the limiter and the validator comes to. *)
Lemma served up now req w :
  allowed now req w = true →
  invalid_format (number req) = false →
  get_check_npi up now req w
  = (respond (check_npi up (number req) (counted now req w)).1.1,
     made_client (counted now req w),
     (check_npi up (number req) (counted now req w)).2) ∧
  ∃ logs,
    (check_npi up (number req) (counted now req w)).2
    = call_events w (number req) ++ logs ∧
    Forall (λ e, is_log e = true) logs.
Proof.
  intros Ha Hv. unfold get_check_npi. rewrite limit_allowed by done.
  destruct (check_npi_valid_calls_upstream up (number req) (counted now req w) Hv)
    as (r & logs & -> & Hlogs).
  split; [done|]. by exists logs.
Qed.

(** X7: an upstream call that fails in transport is answered 500 with the
    fixed detail [NPPES API request failed], whatever the cause, and one
    line naming the number and the cause is logged once the client is
    closed. *)
Theorem transport_failure_answered_500 up now req w cause :
  allowed now req w = true →
  invalid_format (number req) = false →
  up NPPES_API (query (number req)) = TransportFailure cause →
  get_check_npi up now req w
  = (detail_response 500 "NPPES API request failed",
     made_client (counted now req w),
     call_events w (number req) ++
     [LogError (str "Connection error while checking NPI " ++ number req
                  ++ str ": " ++ cause)]).
Proof.
  intros Ha Hv Hup. unfold get_check_npi. rewrite limit_allowed by done.
  by rewrite (check_npi_transport_failure up _ _ Hv cause Hup).
Qed.

(** X8: a registry answer whose status is not 2xx is answered 500 with the
    fixed detail [NPPES API returned error], whatever its body, and one line
    naming the number and the status code is logged. *)
Theorem status_error_answered_500 up now req w code body :
  allowed now req w = true →
  invalid_format (number req) = false →
  up NPPES_API (query (number req)) = Response code body →
  is_success code = false →
  get_check_npi up now req w
  = (detail_response 500 "NPPES API returned error",
     made_client (counted now req w),
     call_events w (number req) ++
     [LogError (str "NPPES API returned error for NPI " ++ number req
                  ++ str ": " ++ str (pretty code))]).
Proof.
  intros Ha Hv Hup Hs. unfold get_check_npi. rewrite limit_allowed by done.
  by rewrite (check_npi_status_error up _ _ Hv code body Hup Hs).
Qed.


(** X10: a 2xx answer with a JSON document that is not of the expected shape
    makes the mapper raise; the caller gets the plain-text server-error
    page and nothing is logged. *)
Theorem unexpected_document_answered_500 up now req w code doc :
  allowed now req w = true →
  invalid_format (number req) = false →
  up NPPES_API (query (number req)) = Response code (JsonBody doc) →
  is_success code = true →
  expected_shape doc = false →
  get_check_npi up now req w
  = (server_error, made_client (counted now req w), call_events w (number req)).
Proof.
  intros Ha Hv Hup Hs Hshape. unfold get_check_npi.
  rewrite limit_allowed by done.
  rewrite (check_npi_json up _ _ Hv code doc Hup Hs).
  destruct (response_mapper (number req) doc) as [body|e] eqn:Hm.
  - apply mapper_answers_only_expected_shape in Hm. congruence.
  - by rewrite (respond_mapper_raise _ _ _ Hm).
Qed.

(** X11: for every request that reaches the endpoint (its host accepted
    and its [number] parameter present), whatever the registry does and
    whatever the state is, the answer is 429 exactly when the limiter denies
    the request, and its status is 200, 400, 429 or 500. *)
Theorem answer_statuses up now req w :
  (status_code (get_check_npi up now req w).1.1 = 429%nat
   ↔ allowed now req w = false) ∧
  status_code (get_check_npi up now req w).1.1 ∈ [200; 400; 429; 500]%nat.
Proof.
  unfold get_check_npi.
  destruct (allowed now req w) eqn:Ha.
  - rewrite limit_allowed by done.
    assert (status_code (respond
              (check_npi up (number req) (counted now req w)).1.1)
            ∈ [200; 400; 500]%nat) as Hin.
    { rewrite !elem_of_cons, elem_of_nil.
      destruct (invalid_format (number req)) eqn:Hv.
      { rewrite check_npi_invalid by done. cbn. tauto. }
      destruct (up NPPES_API (query (number req))) as [cause|code body] eqn:Hup.
      { rewrite (check_npi_transport_failure up _ _ Hv cause Hup). cbn. tauto. }
      destruct (is_success code) eqn:Hs.
      - destruct body as [doc|raw].
        + rewrite (check_npi_json up _ _ Hv code doc Hup Hs). cbn [fst].
          destruct (response_mapper (number req) doc) as [body|e] eqn:Hm.
          * cbn [respond]. destruct (json_compliant body); cbn; tauto.
          * rewrite (respond_mapper_raise _ _ _ Hm). cbn. tauto.
        + rewrite (check_npi_not_json up _ _ Hv code raw Hup Hs). cbn. tauto.
      - rewrite (check_npi_status_error up _ _ Hv code body Hup Hs). cbn. tauto. }
    destruct (check_npi up (number req) (counted now req w)) as [[r w'] ev].
    cbn [fst] in *. rewrite !elem_of_cons, elem_of_nil in *.
    split; [split; [lia|done] | tauto].
  - rewrite limit_denied by done. cbn [fst respond].
    split; [done|]. rewrite !elem_of_cons. tauto.
Qed.

Lemma rejected up now req w :
  allowed now req w = true →
  invalid_format (number req) = true →
  get_check_npi up now req w
  = (detail_response 400 "Invalid NPI number format", counted now req w, []).
Proof.
  intros Ha Hv. unfold get_check_npi. rewrite limit_allowed by done.
  by rewrite check_npi_invalid.
Qed.

Lemma limited up now req w :
  allowed now req w = false →
  get_check_npi up now req w = (rate_limit_handler, counted now req w, []).
Proof. intros Ha. unfold get_check_npi. by rewrite limit_denied. Qed.

(** X12: a request makes one GET, on the client it has just constructed,
    when it passes the limiter and the validator, and none otherwise: the
    call is never repeated. *)
Theorem one_get_per_served_request up now req w :
  clients_used (get_check_npi up now req w).2
  = if allowed now req w && negb (invalid_format (number req))
    then [clients_made w] else [].
Proof.
  destruct (allowed now req w) eqn:Ha; [|by rewrite limited].
  destruct (invalid_format (number req)) eqn:Hv; [by rewrite rejected|].
  destruct (served up now req w Ha Hv) as [-> (logs & Hev & Hlogs)].
  cbn [snd andb negb]. rewrite Hev. unfold clients_used. rewrite omap_app.
  fold (clients_used logs). rewrite (clients_used_logs logs Hlogs).
  reflexivity.
Qed.

(** X13: every request that reaches the endpoint (its host accepted and its
    [number] parameter present) is counted once by the limiter, whatever its
    answer, a denied or an invalid one too; the number of clients made grows
    by one when the request passes the limiter and the validator and stays
    as it was otherwise. *)
Theorem world_after_request up now req w :
  limiter_storage (get_check_npi up now req w).1.2
  = (storage_incr now (client_host req) (limiter_storage w)).2 ∧
  clients_made (get_check_npi up now req w).1.2
  = if allowed now req w && negb (invalid_format (number req))
    then S (clients_made w) else clients_made w.
Proof.
  destruct (allowed now req w) eqn:Ha; [|by rewrite limited].
  destruct (invalid_format (number req)) eqn:Hv; [by rewrite rejected|].
  by destruct (served up now req w Ha Hv) as [-> _].
Qed.

Lemma storage_after_request up now req w :
  limiter_storage (get_check_npi up now req w).1.2
  = (storage_incr now (client_host req) (limiter_storage w)).2.
Proof.
  destruct (allowed now req w) eqn:Ha; [|by rewrite limited].
  destruct (invalid_format (number req)) eqn:Hv; [by rewrite rejected|].
  by destruct (served up now req w Ha Hv) as [-> _].
Qed.

(** X14: a request changes the limiter's count of its own client only. *)
Theorem other_clients_untouched up now req w (key : string) :
  key ≠ client_host req →
  limiter_storage (get_check_npi up now req w).1.2 !! key
  = limiter_storage w !! key.
Proof.
  intros Hne. rewrite storage_after_request. unfold storage_incr.
  destruct (limiter_storage w !! client_host req) as [[expiry count]|];
    [destruct (expiry <=? now)%nat|]; cbn [snd]; by rewrite lookup_insert_ne.
Qed.

Lemma answer_statuses_aux up now req w :
  status_code (get_check_npi up now req w).1.1 = 429%nat
  ↔ allowed now req w = false.
Proof.
  destruct (allowed now req w) eqn:Ha; [|by rewrite limited].
  split; [|done]. intros H. exfalso.
  destruct (invalid_format (number req)) eqn:Hv; [by rewrite rejected in H|].
  destruct (served up now req w Ha Hv) as [Heq _]. rewrite Heq in H.
  cbn [fst] in H. revert H.
  destruct (up NPPES_API (query (number req))) as [cause|code body] eqn:Hup.
  { by rewrite (check_npi_transport_failure up _ _ Hv cause Hup). }
  destruct (is_success code) eqn:Hs.
  - destruct body as [doc|raw].
    + rewrite (check_npi_json up _ _ Hv code doc Hup Hs). cbn [fst].
      destruct (response_mapper (number req) doc) as [body|e] eqn:Hm.
      * cbn [respond]. by destruct (json_compliant body).
      * by rewrite (respond_mapper_raise _ _ _ Hm).
    + by rewrite (check_npi_not_json up _ _ Hv code raw Hup Hs).
  - by rewrite (check_npi_status_error up _ _ Hv code body Hup Hs).
Qed.

(** Within a running window the hits of a key are counted one by one and
    the request that would be hit number 11 or more is answered 429. *)
Lemma limited_within_window up key expiry reqs : ∀ count w,
  limiter_storage w !! key = Some (expiry, count) →
  Forall (λ tr : nat * request, client_host tr.2 = key ∧ (tr.1 < expiry)%nat) reqs →
  (λ s, bool_decide (s = 429%nat)) <$> serve_all up reqs w
  = (λ i, bool_decide (limit_amount ≤ i)%nat) <$> seq count (length reqs).
Proof.
  induction reqs as [|[now req] reqs IH]; intros count w Hkey Hall; [done|].
  inversion_clear Hall as [|? ? [Hhost Hnow] Hall']. simpl in Hhost, Hnow.
  cbn [serve_all length seq fmap list_fmap].
  pose proof (answer_statuses_aux up now req w) as Hst.
  pose proof (storage_after_request up now req w) as Hsto.
  destruct (get_check_npi up now req w) as [[resp w'] ev]. cbn [fst snd] in *.
  assert (Hincr : storage_incr now key (limiter_storage w)
                  = (S count, <[key := (expiry, S count)]> (limiter_storage w))).
  { unfold storage_incr. rewrite Hkey.
    destruct (expiry <=? now)%nat eqn:He; [apply Nat.leb_le in He; lia|done]. }
  rewrite fmap_cons. f_equal.
  - apply bool_decide_ext. rewrite Hst. unfold allowed. rewrite Hhost, Hincr.
    cbn [fst]. rewrite Nat.leb_gt. unfold limit_amount. lia.
  - apply (IH (S count)); [|done]. rewrite Hsto, Hhost, Hincr. cbn [snd].
    apply lookup_insert_eq.
Qed.

(** X15: when a client has no running window (none yet, or one that has
    ended), its request opens a window of 60 seconds, and of the requests it
    makes within that window, the opening one included, exactly the first ten
    are let through: the eleventh and the following are answered 429. *)
Theorem first_ten_of_a_window up key now0 req0 reqs w :
  (∀ expiry count,
     limiter_storage w !! key = Some (expiry, count) → (expiry ≤ now0)%nat) →
  client_host req0 = key →
  Forall (λ tr : nat * request,
            client_host tr.2 = key ∧ (tr.1 < now0 + limit_window)%nat) reqs →
  (λ s, bool_decide (s = 429%nat)) <$> serve_all up ((now0, req0) :: reqs) w
  = (λ i, bool_decide (limit_amount ≤ i)%nat) <$> seq 0 (S (length reqs)).
Proof.
  intros Hold Hhost Hall. cbn [serve_all length seq].
  pose proof (answer_statuses_aux up now0 req0 w) as Hst.
  pose proof (storage_after_request up now0 req0 w) as Hsto.
  destruct (get_check_npi up now0 req0 w) as [[resp w'] ev]. cbn [fst snd] in *.
  assert (Hincr : storage_incr now0 key (limiter_storage w)
                  = (1%nat, <[key := ((now0 + limit_window)%nat, 1%nat)]>
                              (limiter_storage w))).
  { unfold storage_incr.
    destruct (limiter_storage w !! key) as [[expiry count]|] eqn:Hkey; [|done].
    specialize (Hold _ _ eq_refl). apply Nat.leb_le in Hold. by rewrite Hold. }
  rewrite !fmap_cons. f_equal.
  - apply bool_decide_ext. rewrite Hst. unfold allowed. rewrite Hhost, Hincr.
    cbn [fst]. unfold limit_amount. split; [done|lia].
  - apply (limited_within_window up key (now0 + limit_window)); [|done].
    rewrite Hsto, Hhost, Hincr. cbn [snd]. apply lookup_insert_eq.
Qed.

(** X16: whatever the document, a body the mapper returns is one of the
    three LookupResult bodies and carries the number it was asked about. *)
Theorem mapper_returns_lookup_result number data body :
  response_mapper number data = Ok body →
  LookupResult number body ∧
  body_field (Json body) (str "number") = Some (JStr number).
Proof.
  intros H. destruct (response_mapper_ok_inv _ _ _ H) as (d & -> & [Hf|Hs]).
  - rewrite response_mapper_falsy in H by done. injection H as <-.
    split; [constructor|reflexivity].
  - destruct Hs as (e & rest & basic & status & Hres & Hbasic & Hstatus).
    rewrite (response_mapper_first number d e rest basic status) in H by done.
    injection H as <-.
    destruct (bool_decide (upper status = str "A"));
      (split; [constructor|reflexivity]).
Qed.

(** X17: of a document whose first result is an object with an object
    [basic], the mapper reads [enumeration_type] and, under [basic],
    [status], [first_name] and [last_name]: two documents that agree on
    these four members are mapped alike, whatever else they hold. *)
Theorem mapper_reads_four_members number d1 d2 e1 e2 rest1 rest2 b1 b2 :
  dict_lookup d1 (str "results") = Some (JList (JDict e1 :: rest1)) →
  dict_lookup d2 (str "results") = Some (JList (JDict e2 :: rest2)) →
  dict_lookup e1 (str "basic") = Some (JDict b1) →
  dict_lookup e2 (str "basic") = Some (JDict b2) →
  dict_lookup e1 (str "enumeration_type") = dict_lookup e2 (str "enumeration_type") →
  dict_lookup b1 (str "status") = dict_lookup b2 (str "status") →
  dict_lookup b1 (str "first_name") = dict_lookup b2 (str "first_name") →
  dict_lookup b1 (str "last_name") = dict_lookup b2 (str "last_name") →
  response_mapper number (JDict d1) = response_mapper number (JDict d2).
Proof.
  intros Hr1 Hr2 Hb1 Hb2 Ht Hs Hf Hl. unfold response_mapper, py_get, py_getitem.
  rewrite Hr1, Hr2. cbn [default from_option id rbind truthy negb py_first].
  rewrite Hb1, Hb2. cbn [default from_option id rbind].
  by rewrite Ht, Hs, Hf, Hl.
Qed.

(** X18: a [results] member that is falsy, not only the empty array but
    also null, false, zero, the empty string or the empty object, gives the
    NotFound body. *)
Theorem falsy_results_not_found number d results :
  dict_lookup d (str "results") = Some results →
  truthy results = false →
  response_mapper number (JDict d) = Ok (not_found number).
Proof.
  intros Hres Hf. apply response_mapper_falsy. by rewrite Hres.
Qed.

Lemma transport_failure_answered_500_witness :
  get_check_npi registry_down 0 a_request start
  = (detail_response 500 "NPPES API request failed",
     made_client (counted 0 a_request start),
     call_events start (number a_request) ++
     [LogError (str "Connection error while checking NPI " ++ number a_request
                  ++ str ": " ++ str "timed out")]).
Proof.
  apply (transport_failure_answered_500 registry_down 0 a_request start
           (str "timed out")); vm_compute; reflexivity.
Defined.

Lemma status_error_answered_500_witness :
  get_check_npi registry_bad_gateway 0 a_request start
  = (detail_response 500 "NPPES API returned error",
     made_client (counted 0 a_request start),
     call_events start (number a_request) ++
     [LogError (str "NPPES API returned error for NPI " ++ number a_request
                  ++ str ": " ++ str (pretty 502%nat))]).
Proof.
  apply (status_error_answered_500 registry_bad_gateway 0 a_request start 502
           (NotJson (str "<html>maintenance</html>"))); vm_compute; reflexivity.
Defined.


Lemma unexpected_document_answered_500_witness :
  get_check_npi (registry_ok (JList [])) 0 a_request start
  = (server_error, made_client (counted 0 a_request start),
     call_events start (number a_request)).
Proof.
  apply (unexpected_document_answered_500 (registry_ok (JList [])) 0 a_request
           start 200 (JList [])); vm_compute; reflexivity.
Defined.

Lemma other_clients_untouched_witness :
  limiter_storage (get_check_npi registry_down 105 a_request busy_world).1.2
    !! "10.0.0.2"
  = limiter_storage busy_world !! "10.0.0.2".
Proof.
  apply (other_clients_untouched registry_down 105 a_request busy_world
           "10.0.0.2").
  apply (bool_decide_unpack _). vm_compute. exact I.
Defined.

Lemma first_ten_of_a_window_witness :
  (λ s, bool_decide (s = 429%nat)) <$>
    serve_all registry_down ((100%nat, a_request) :: burst) busy_world
  = (λ i, bool_decide (limit_amount ≤ i)%nat) <$> seq 0 (S (length burst)).
Proof.
  apply (first_ten_of_a_window registry_down "10.0.0.1" 100 a_request burst
           busy_world).
  - intros expiry count H. vm_compute in H. injection H as <- _. lia.
  - reflexivity.
  - apply (bool_decide_unpack _). vm_compute. exact I.
Defined.

Lemma mapper_returns_lookup_result_witness :
  LookupResult (str "1234567890")
    (found (str "1234567890") (JStr (str "NPI-1")) (JStr (str "ANA")) JNull) ∧
  body_field
    (Json (found (str "1234567890") (JStr (str "NPI-1")) (JStr (str "ANA")) JNull))
    (str "number") = Some (JStr (str "1234567890")).
Proof.
  apply (mapper_returns_lookup_result (str "1234567890") (JDict active_doc)).
  reflexivity.
Defined.

Lemma mapper_reads_four_members_witness :
  response_mapper (str "1234567890") (JDict active_doc)
  = response_mapper (str "1234567890") (JDict another_doc).
Proof.
  apply (mapper_reads_four_members (str "1234567890") active_doc another_doc
           [(str "enumeration_type", JStr (str "NPI-1"));
            (str "basic", JDict [(str "first_name", JStr (str "ANA"));
                                 (str "status", JStr (str "a"))])]
           [(str "number", JInt 1234567890);
            (str "basic", JDict [(str "status", JStr (str "a"));
                                 (str "first_name", JStr (str "ANA"));
                                 (str "credential", JStr (str "MD"))]);
            (str "enumeration_type", JStr (str "NPI-1"))]
           [JDict [(str "basic", JDict [(str "status", JStr (str "I"))])]] []
           [(str "first_name", JStr (str "ANA")); (str "status", JStr (str "a"))]
           [(str "status", JStr (str "a")); (str "first_name", JStr (str "ANA"));
            (str "credential", JStr (str "MD"))]); reflexivity.
Defined.

Lemma falsy_results_not_found_witness :
  response_mapper (str "1234567890")
    (JDict [(str "Errors", JList [JStr (str "no match")]); (str "results", JNull)])
  = Ok (not_found (str "1234567890")).
Proof.
  apply (falsy_results_not_found (str "1234567890")
           [(str "Errors", JList [JStr (str "no match")]); (str "results", JNull)]
           JNull); reflexivity.
Defined.

Lemma invalid_number_rejected_witness :
  ∃ w',
    get_check_npi registry_down 0
      {| client_host := "10.0.0.1"; number := str "12345 7890" |} start
    = (detail_response 400 "Invalid NPI number format", w', []) ∧
    clients_made w' = 0%nat.
Proof.
  apply (invalid_number_rejected registry_down 0
           {| client_host := "10.0.0.1"; number := str "12345 7890" |} start);
    [vm_compute; lia | vm_compute; reflexivity].
Defined.

Lemma invalid_format_ascii_witness :
  invalid_format (str "123456789") = negb (ten_ascii_digits (str "123456789")).
Proof.
  apply (invalid_format_ascii (str "123456789")).
  apply (bool_decide_unpack _). vm_compute. exact I.
Defined.
